(** * Zepto product search: the ranking core of [stream.py]

    A shallow embedding of the search pipeline of [stream.py]
    ([normalize_text_simple], [get_weighted_tfidf_vector],
    [calculate_discount_percentage], [get_relevant_products]) and the
    properties of its specification.

    Conventions of the embedding:
    - a Python [str] is a [string] whose characters are the code points
      below 256 (Latin-1); the tables for [str.lower], [\w] and [\s] are
      those of CPython on that range; the normalizer is also given on a
      wider alphabet, with a letter of Unicode outside that range;
    - a Python float that holds catalog data (prices, ratings, thresholds)
      is an [option Q], [None] being NaN; a float that holds a TF-IDF weight
      or a similarity is a real number, since cosine similarity takes square
      roots; rounding is not modelled;
    - a Python exception is the [Raise] outcome of the error monad below;
    - [eval] of an image text is a function of the text in the first
      pipeline, and a function of the text and of the interpreter state in
      the second, which is the one the properties on repeated invocations
      are about. *)

From Stdlib Require Import List String Ascii Bool Arith NArith ZArith QArith.
From Stdlib Require Import Lia Lra Reals Sorting.Sorted Sorting.Permutation.
From Stdlib Require Lqa.
Import ListNotations.

(** ** Exceptions *)

Inductive exn : Type :=
| ValueError   (* inconsistent shapes, incompatible dimensions *)
| TypeError    (* object is not subscriptable *)
| IndexError.  (* positional index out of bounds *)

Inductive outcome (A : Type) : Type :=
| Ok (a : A)
| Raise (e : exn).

Arguments Ok {A} a.
Arguments Raise {A} e.

Definition bind {A B : Type} (m : outcome A) (k : A -> outcome B) : outcome B :=
  match m with
  | Ok a => k a
  | Raise e => Raise e
  end.

Notation "x <- m ;; k" := (bind m (fun x => k))
  (at level 61, m at next level, right associativity).

(** ** Text: [str.lower], [re.sub(r'[^\w\s]', '', _)], [str.strip] *)

Local Open Scope N_scope.

Definition code (c : ascii) : N := N_of_ascii c.

Definition in_range (lo hi n : N) : bool := (lo <=? n) && (n <=? hi).

(** [str.isalnum] on one code point: letters, decimal digits and the
    numeric characters of Latin-1 (superscripts and vulgar fractions). *)
Definition isalnum (c : ascii) : bool :=
  let n := code c in
  in_range 48 57 n || in_range 65 90 n || in_range 97 122 n
  || (n =? 170) || (n =? 178) || (n =? 179) || (n =? 181)
  || (n =? 185) || (n =? 186) || in_range 188 190 n
  || in_range 192 214 n || in_range 216 246 n || in_range 248 255 n.

(** The class [\w] of a [str] pattern. *)
Definition is_word (c : ascii) : bool := isalnum c || (code c =? 95).

(** The class [\s] of a [str] pattern, which is also what [str.strip]
    removes. *)
Definition is_space (c : ascii) : bool :=
  let n := code c in
  in_range 9 13 n || in_range 28 32 n || (n =? 133) || (n =? 160).

Definition is_upper (c : ascii) : bool :=
  let n := code c in
  in_range 65 90 n || (in_range 192 222 n && negb (n =? 215)).

Definition lower_char (c : ascii) : ascii :=
  if is_upper c then ascii_of_N (code c + 32) else c.

Local Close Scope N_scope.

(** [text.lower()] *)
Fixpoint str_lower (s : string) : string :=
  match s with
  | EmptyString => EmptyString
  | String c s' => String (lower_char c) (str_lower s')
  end.

(** [re.sub(r'[^\w\s]', '', text)] *)
Fixpoint re_sub_nonword (s : string) : string :=
  match s with
  | EmptyString => EmptyString
  | String c s' =>
      if is_word c || is_space c then String c (re_sub_nonword s')
      else re_sub_nonword s'
  end.

(** [normalize_text_simple]; the argument is [None] where [pd.isna] holds. *)
Definition normalize_text_simple (text : option string) : string :=
  match text with
  | None => EmptyString
  | Some t => re_sub_nonword (str_lower t)
  end.

Fixpoint lstrip (s : string) : string :=
  match s with
  | EmptyString => EmptyString
  | String c s' => if is_space c then lstrip s' else s
  end.

Fixpoint rstrip (s : string) : string :=
  match s with
  | EmptyString => EmptyString
  | String c s' =>
      match rstrip s' with
      | EmptyString => if is_space c then EmptyString else String c EmptyString
      | r => String c r
      end
  end.

(** [query.strip()] *)
Definition strip (s : string) : string := lstrip (rstrip s).

(** [not s]: the truth value of a string is its non-emptiness. *)
Definition str_is_empty (s : string) : bool :=
  match s with
  | EmptyString => true
  | String _ _ => false
  end.

Fixpoint all_chars (p : ascii -> bool) (s : string) : bool :=
  match s with
  | EmptyString => true
  | String c s' => p c && all_chars p s'
  end.

(** A character the normalizer may leave: a word character or whitespace
    that lowercasing does not change. *)
Definition lowercase_word_or_space (c : ascii) : bool :=
  (is_word c || is_space c) && negb (is_upper c).

(** Tokens of the default [token_pattern] of the vectorizer,
    [(?u)\b\w\w+\b]: the maximal runs of word characters that have at least
    two characters, from left to right. *)
Definition emit (cur : string) : list string :=
  if (2 <=? String.length cur)%nat then [cur] else [].

Fixpoint tokens_from (s cur : string) : list string :=
  match s with
  | EmptyString => emit cur
  | String c s' =>
      if is_word c then tokens_from s' (cur ++ String c EmptyString)
      else emit cur ++ tokens_from s' EmptyString
  end.

Definition tokenize (s : string) : list string := tokens_from s EmptyString.

(** ** Vectors of reals: sparse rows and dense arrays alike *)

Definition vec : Type := list R.

(** [a * v] *)
Definition vscale (a : R) (v : vec) : vec := map (Rmult a) v.

(** The sum of two rows, position by position. *)
Definition zip_add (u v : vec) : vec :=
  map (fun p => (fst p + snd p)%R) (combine u v).

(** [u + v]: defined on equal shapes, [ValueError] otherwise. The arrays
    added in [get_relevant_products] always have one length each, so
    broadcasting of length-one arrays is not modelled. *)
Definition vadd (u v : vec) : outcome vec :=
  if Nat.eqb (List.length u) (List.length v)
  then Ok (zip_add u v)
  else Raise ValueError.

Definition dot (u v : vec) : R :=
  fold_right Rplus 0%R (map (fun p => (fst p * snd p)%R) (combine u v)).

(** Row normalization to unit Euclidean length; a row whose sum of squares
    is zero is left as it is. *)
Definition l2_normalize (v : vec) : vec :=
  if Req_dec_T (dot v v) 0%R then v
  else map (fun x => (x / sqrt (dot v v))%R) v.

(** Cosine similarity of two rows: the dot product of the normalized rows. *)
Definition cosine (x y : vec) : R := dot (l2_normalize x) (l2_normalize y).

Record matrix : Type := { ncols : nat; mrows : list vec }.

(** [cosine_similarity(X, Y).flatten()] for a query row [X]:
    [ValueError] when the numbers of columns differ. *)
Definition cosine_similarity (X : vec) (Y : matrix) : outcome vec :=
  if Nat.eqb (List.length X) (ncols Y)
  then Ok (map (cosine X) (mrows Y))
  else Raise ValueError.

(** ** Fitted vectorizers *)

(** The cap on the size of each learned vocabulary. *)
Definition max_features : nat := 3000.

(** A fitted [TfidfVectorizer]: its vocabulary in column order, each term
    with its inverse document frequency. Fitting itself (the choice of the
    terms) is the library's and is not modelled. *)
Record TfidfVectorizer : Type := { features : list (string * R) }.

Definition vocabulary_size (v : TfidfVectorizer) : nat := List.length (features v).

Definition term_count (toks : list string) (t : string) : nat :=
  count_occ string_dec toks t.

(** [v.transform([doc])]: lowercase, tokenize, count the vocabulary terms,
    weight by idf, normalize. A term outside the vocabulary counts nowhere. *)
Definition transform (v : TfidfVectorizer) (doc : string) : vec :=
  let toks := tokenize (str_lower doc) in
  l2_normalize
    (map (fun ti => (INR (term_count toks (fst ti)) * snd ti)%R) (features v)).

(** The document-term matrix of a column under a fitted vectorizer. *)
Definition fit_transform (v : TfidfVectorizer) (docs : list string) : matrix :=
  {| ncols := vocabulary_size v; mrows := map (transform v) docs |}.

(** ** The catalog and the module state *)

Inductive rating_cell : Type :=
| RatingNum (q : Q)
| RatingText (s : string)
| RatingMissing.

(** A row of [df]; a cell is [None] where the CSV has no value. *)
Record ProductRow : Type := {
  product_name : option string;
  product_category_tree : option string;
  brand : option string;
  description : option string;
  extracted_specifications : option string;
  retail_price : option Q;
  discounted_price : option Q;
  product_rating : rating_cell;
  image : option string;
  product_url : option string
}.

Definition normalized_product_name (r : ProductRow) : string :=
  normalize_text_simple (product_name r).
Definition normalized_product_category (r : ProductRow) : string :=
  normalize_text_simple (product_category_tree r).
Definition normalized_brand (r : ProductRow) : string :=
  normalize_text_simple (brand r).
Definition normalized_description (r : ProductRow) : string :=
  normalize_text_simple (description r).
Definition normalized_extracted_specifications (r : ProductRow) : string :=
  normalize_text_simple (extracted_specifications r).

(** The globals of the module after import. *)
Record Store : Type := {
  df : list ProductRow;
  tfidf_name : TfidfVectorizer;
  tfidf_category : TfidfVectorizer;
  tfidf_brand : TfidfVectorizer;
  tfidf_description : TfidfVectorizer;
  tfidf_specifications : TfidfVectorizer
}.

Definition tfidf_name_matrix (st : Store) : matrix :=
  fit_transform (tfidf_name st) (map normalized_product_name (df st)).
Definition tfidf_category_matrix (st : Store) : matrix :=
  fit_transform (tfidf_category st) (map normalized_product_category (df st)).
Definition tfidf_brand_matrix (st : Store) : matrix :=
  fit_transform (tfidf_brand st) (map normalized_brand (df st)).
Definition tfidf_description_matrix (st : Store) : matrix :=
  fit_transform (tfidf_description st) (map normalized_description (df st)).
Definition tfidf_specifications_matrix (st : Store) : matrix :=
  fit_transform (tfidf_specifications st)
    (map normalized_extracted_specifications (df st)).

Inductive field : Type := Name | Category | Brand | Description | Specifications.

Definition weights (f : field) : R :=
  match f with
  | Name => 0.4
  | Category => 0.2
  | Brand => 0.15
  | Description => 0.15
  | Specifications => 0.1
  end%R.

(** ** Query vectorization *)

Definition get_weighted_tfidf_vector (st : Store) (query : string) : outcome vec :=
  let query := normalize_text_simple (Some query) in
  let query_name_vector := transform (tfidf_name st) query in
  let query_category_vector := transform (tfidf_category st) query in
  let query_brand_vector := transform (tfidf_brand st) query in
  let query_description_vector := transform (tfidf_description st) query in
  let query_specifications_vector := transform (tfidf_specifications st) query in
  s1 <- vadd (vscale (weights Name) query_name_vector)
             (vscale (weights Category) query_category_vector) ;;
  s2 <- vadd s1 (vscale (weights Brand) query_brand_vector) ;;
  s3 <- vadd s2 (vscale (weights Description) query_description_vector) ;;
  vadd s3 (vscale (weights Specifications) query_specifications_vector).

(** The single query vector the code builds: the weighted sum of the five
    per-field vectors, position by position. *)
Definition merged_query_vector (st : Store) (query : string) : vec :=
  let q := normalize_text_simple (Some query) in
  zip_add
    (zip_add
       (zip_add
          (zip_add (vscale (weights Name) (transform (tfidf_name st) q))
                   (vscale (weights Category) (transform (tfidf_category st) q)))
          (vscale (weights Brand) (transform (tfidf_brand st) q)))
       (vscale (weights Description) (transform (tfidf_description st) q)))
    (vscale (weights Specifications) (transform (tfidf_specifications st) q)).

(** ** Ranking *)

(** Lines 95 to 109 of [get_relevant_products]: the combined similarity of
    every catalog row. *)
Definition combined_similarities (st : Store) (query : string) : outcome vec :=
  query_vector <- get_weighted_tfidf_vector st query ;;
  similarities_name <- cosine_similarity query_vector (tfidf_name_matrix st) ;;
  similarities_category <-
    cosine_similarity query_vector (tfidf_category_matrix st) ;;
  similarities_brand <- cosine_similarity query_vector (tfidf_brand_matrix st) ;;
  similarities_description <-
    cosine_similarity query_vector (tfidf_description_matrix st) ;;
  similarities_specifications <-
    cosine_similarity query_vector (tfidf_specifications_matrix st) ;;
  c1 <- vadd (vscale (weights Name) similarities_name)
             (vscale (weights Category) similarities_category) ;;
  c2 <- vadd c1 (vscale (weights Brand) similarities_brand) ;;
  c3 <- vadd c2 (vscale (weights Description) similarities_description) ;;
  vadd c3 (vscale (weights Specifications) similarities_specifications).

(** Insertion of an (index, key) pair after every pair whose key is not
    greater: the step of a stable insertion sort. *)
Fixpoint insert_key (p : nat * R) (l : list (nat * R)) : list (nat * R) :=
  match l with
  | [] => [p]
  | q :: l' =>
      if Rlt_dec (snd p) (snd q) then p :: q :: l' else q :: insert_key p l'
  end.

Definition sort_keys (l : list (nat * R)) : list (nat * R) :=
  fold_left (fun acc p => insert_key p acc) l [].

(** [a.argsort()]: the positions of [a] in ascending order of their
    values. numpy's default sort is not stable and promises no order between
    positions of equal values; the model fixes one of the orders it may
    give, equal values by ascending position. What is stated of the
    selection below holds for every such order, unless it is said of one
    catalog. *)
Definition argsort (a : vec) : list nat :=
  map fst (sort_keys (combine (seq 0 (List.length a)) a)).

(** [l[start:]] with Python's treatment of negative and overlong starts. *)
Definition slice_from {A : Type} (start : Z) (l : list A) : list A :=
  let n := Z.of_nat (List.length l) in
  let s := if (start <? 0)%Z then Z.max (n + start) 0 else Z.min start n in
  skipn (Z.to_nat s) l.

(** [combined_similarities.argsort()[-top_n:][::-1]] *)
Definition top_indices (combined : vec) (top_n : Z) : list nat :=
  rev (slice_from (- top_n) (argsort combined)).

(** [df.iloc[idx]]: rows by position, [IndexError] out of bounds. *)
Fixpoint iloc (d : list ProductRow) (idx : list nat) : outcome (list ProductRow) :=
  match idx with
  | [] => Ok []
  | i :: rest =>
      match nth_error d i with
      | Some r => rs <- iloc d rest ;; Ok (r :: rs)
      | None => Raise IndexError
      end
  end.

(** ** Python values and the two library parsers *)

(** The values [eval] may return, as far as the literal syntax goes. *)
#[warnings="-register-all"] Inductive pyobj : Type :=
| PyNone
| PyBool (b : bool)
| PyInt (z : Z)
| PyStr (s : string)
| PyList (l : list pyobj).

(** The truth value of an object, as [if image_urls:] tests it. *)
Definition truthy (v : pyobj) : bool :=
  match v with
  | PyNone => false
  | PyBool b => b
  | PyInt z => negb (z =? 0)%Z
  | PyStr s => negb (str_is_empty s)
  | PyList l => match l with [] => false | _ :: _ => true end
  end.

(** [v[0]] *)
Definition getitem0 (v : pyobj) : outcome pyobj :=
  match v with
  | PyList (x :: _) => Ok x
  | PyList [] => Raise IndexError
  | PyStr (String c _) => Ok (PyStr (String c EmptyString))
  | PyStr EmptyString => Raise IndexError
  | PyNone | PyBool _ | PyInt _ => Raise TypeError
  end.

(** The interpreter and pandas, as the pipeline uses them: [py_eval s] is
    the value of [eval(s)], [None] when [eval] raises; [parse_numeric s] is
    the number pandas reads in the text [s], [None] when there is none. *)
Class PyRuntime : Type := {
  py_eval : string -> option pyobj;
  parse_numeric : string -> option Q
}.

(** ** Result rows, discount and filters *)

(** A row of [results]: the catalog row with its coerced rating and its
    discount percentage. *)
Record ResultRow : Type := {
  row : ProductRow;
  rating_numeric : option Q;
  discount_percentage : option Q
}.

(** The output record. *)
Record ProductSummary : Type := {
  summary_image : pyobj;
  summary_name : option string;
  summary_price : option Q;
  summary_url : option string
}.

(** [x > y] on numbers that are not NaN. *)
Definition Qgt_bool (x y : Q) : bool := negb (Qle_bool x y).

Definition calculate_discount_percentage (r : ProductRow) : option Q :=
  match retail_price r with
  | Some rp =>
      if Qgt_bool rp 0 then
        match discounted_price r with
        | Some dp => Some (100 * (1 - dp / rp))%Q
        | None => None
        end
      else None
  | None => None
  end.

Definition fillna (d : Q) (x : option Q) : Q :=
  match x with
  | Some v => v
  | None => d
  end.

Definition isna (x : option Q) : bool :=
  match x with
  | Some _ => false
  | None => true
  end.

(** The boolean mask of lines 121 to 125, at one row. *)
Definition filter_mask (max_price min_discount min_rating : Q) (r : ResultRow) : bool :=
  (Qle_bool (fillna (max_price + 1)%Q (discounted_price (row r))) max_price
   || isna (discounted_price (row r)))
  && (Qle_bool min_discount (fillna (-1)%Q (discount_percentage r))
      || isna (discount_percentage r))
  && (Qle_bool min_rating (fillna (-1)%Q (rating_numeric r))
      || isna (rating_numeric r)).

(** A filter with an upper threshold passes a value that is absent or at
    most the threshold; one with a lower threshold, a value that is absent
    or at least the threshold. *)
Definition passes_max (x : option Q) (bound : Q) : Prop :=
  x = None \/ exists v, x = Some v /\ (v <= bound)%Q.

Definition passes_min (x : option Q) (bound : Q) : Prop :=
  x = None \/ exists v, x = Some v /\ (bound <= v)%Q.

Section Pipeline.

Context {rt : PyRuntime}.

(** [pd.to_numeric(_, errors='coerce')] at one cell. *)
Definition to_numeric (c : rating_cell) : option Q :=
  match c with
  | RatingNum q => Some q
  | RatingText s => parse_numeric s
  | RatingMissing => None
  end.

(** Lines 115 and 118: the two derived columns of [results], at one row.
    The catalog has at least one row, or the import fails at the first
    fit; what pandas does on an empty selection is not modelled. *)
Definition derive (r : ProductRow) : ResultRow :=
  {| row := r;
     rating_numeric := to_numeric (product_rating r);
     discount_percentage := calculate_discount_percentage r |}.

(** [eval(row['image'])] under [try]: [eval] of a missing cell raises
    [TypeError], which the handler catches as any other exception. *)
Definition try_eval_image (cell : option string) : pyobj :=
  match cell with
  | Some s =>
      match py_eval s with
      | Some v => v
      | None => PyList []
      end
  | None => PyList []
  end.

(** The record appended for a row whose first image is [first]. *)
Definition summary_of_row (first : pyobj) (r : ResultRow) : ProductSummary :=
  {| summary_image := first;
     summary_name := product_name (row r);
     summary_price := discounted_price (row r);
     summary_url := product_url (row r) |}.

(** The loop of lines 127 to 140 over [filtered_results], with the list
    [products] built so far. *)
Fixpoint products_loop (rows : list ResultRow) (products : list ProductSummary)
  : outcome (list ProductSummary) :=
  match rows with
  | [] => Ok products
  | r :: rest =>
      let image_urls := try_eval_image (image (row r)) in
      if truthy image_urls then
        first <- getitem0 image_urls ;;
        products_loop rest (products ++ [summary_of_row first r])
      else products_loop rest products
  end.

Definition get_relevant_products (st : Store) (query : string)
    (max_price min_discount min_rating : Q) (top_n : Z)
  : outcome (list ProductSummary) :=
  if str_is_empty (strip query) then Ok []
  else
    combined <- combined_similarities st query ;;
    let top := top_indices combined top_n in
    selected <- iloc (df st) top ;;
    let results := map derive selected in
    let filtered_results :=
      filter (filter_mask max_price min_discount min_rating) results in
    products_loop filtered_results [].

(** What a row adds to the output when its image field evaluates to a
    list, or fails to evaluate: one record with the first element of a
    list that has one, nothing otherwise. *)
Definition emitted (r : ResultRow) : list ProductSummary :=
  match try_eval_image (image (row r)) with
  | PyList (first :: _) => [summary_of_row first r]
  | _ => []
  end.

(** ** Requests *)


End Pipeline.

(** ** The combination the specification describes *)

(** The query as five separately weighted vectors, one per field. *)
Definition spec_query_vectors (st : Store) (query : string) : field -> vec :=
  fun f =>
    let q := normalize_text_simple (Some query) in
    match f with
    | Name => vscale (weights Name) (transform (tfidf_name st) q)
    | Category => vscale (weights Category) (transform (tfidf_category st) q)
    | Brand => vscale (weights Brand) (transform (tfidf_brand st) q)
    | Description =>
        vscale (weights Description) (transform (tfidf_description st) q)
    | Specifications =>
        vscale (weights Specifications) (transform (tfidf_specifications st) q)
    end.

(** The vector of one catalog row in the space of one field. *)
Definition row_vector (st : Store) (f : field) (r : ProductRow) : vec :=
  match f with
  | Name => transform (tfidf_name st) (normalized_product_name r)
  | Category => transform (tfidf_category st) (normalized_product_category r)
  | Brand => transform (tfidf_brand st) (normalized_brand r)
  | Description => transform (tfidf_description st) (normalized_description r)
  | Specifications =>
      transform (tfidf_specifications st) (normalized_extracted_specifications r)
  end.

(** The score the specification words describe: the plain sum of the five
    per-field similarities, each between the field's own weighted query
    vector and the row. *)
Definition spec_combined_score (st : Store) (query : string) (r : ProductRow) : R :=
  (cosine (spec_query_vectors st query Name) (row_vector st Name r)
   + cosine (spec_query_vectors st query Category) (row_vector st Category r)
   + cosine (spec_query_vectors st query Brand) (row_vector st Brand r)
   + cosine (spec_query_vectors st query Description) (row_vector st Description r)
   + cosine (spec_query_vectors st query Specifications)
       (row_vector st Specifications r))%R.

(** The score the code computes when the five vocabularies have one size:
    the weighted sum of the similarities between the single merged query
    vector and the row in each field. *)
Definition weighted_score (st : Store) (qv : vec) (r : ProductRow) : R :=
  (weights Name * cosine qv (row_vector st Name r)
   + weights Category * cosine qv (row_vector st Category r)
   + weights Brand * cosine qv (row_vector st Brand r)
   + weights Description * cosine qv (row_vector st Description r)
   + weights Specifications * cosine qv (row_vector st Specifications r))%R.

(** All five vocabularies have the same number of terms. *)
Definition same_vocabulary_sizes (st : Store) : Prop :=
  vocabulary_size (tfidf_name st) = vocabulary_size (tfidf_category st) /\
  vocabulary_size (tfidf_name st) = vocabulary_size (tfidf_brand st) /\
  vocabulary_size (tfidf_name st) = vocabulary_size (tfidf_description st) /\
  vocabulary_size (tfidf_name st) = vocabulary_size (tfidf_specifications st).

(** ** A runtime and two catalogs for the examples *)

Inductive literal_state : Type :=
| BeforeList
| ExpectItem
| InString (quote : ascii) (acc : string)
| AfterItem
| AfterList.

Definition is_blank (c : ascii) : bool :=
  (code c =? 32)%N || (code c =? 9)%N.

Definition is_quote (c : ascii) : bool :=
  (code c =? 39)%N || (code c =? 34)%N.

(** A reader of list displays of plain string literals, such as
    ['a', "b"]: on a text it accepts it returns what [eval] returns; it
    rejects every other text. *)
Fixpoint eval_list_display (s : string) (stt : literal_state) (items : list pyobj)
  : option pyobj :=
  match s with
  | EmptyString =>
      match stt with
      | AfterList => Some (PyList items)
      | _ => None
      end
  | String c s' =>
      match stt with
      | BeforeList =>
          if is_blank c then eval_list_display s' BeforeList items
          else if (code c =? 91)%N then eval_list_display s' ExpectItem items
          else None
      | ExpectItem =>
          if is_blank c then eval_list_display s' ExpectItem items
          else if is_quote c then eval_list_display s' (InString c EmptyString) items
          else if (code c =? 93)%N then eval_list_display s' AfterList items
          else None
      | InString q acc =>
          if Ascii.eqb c q then eval_list_display s' AfterItem (items ++ [PyStr acc])
          else if (code c =? 92)%N || (code c =? 10)%N || (code c =? 13)%N then None
          else eval_list_display s' (InString q (acc ++ String c EmptyString)) items
      | AfterItem =>
          if is_blank c then eval_list_display s' AfterItem items
          else if (code c =? 44)%N then eval_list_display s' ExpectItem items
          else if (code c =? 93)%N then eval_list_display s' AfterList items
          else None
      | AfterList =>
          if is_blank c then eval_list_display s' AfterList items else None
      end
  end.

Definition digit_value (c : ascii) : option Z :=
  if in_range 48 57 (code c) then Some (Z.of_N (code c) - 48)%Z else None.

(** A reader of unsigned decimal numerals such as 4 and 4.5. *)
Fixpoint read_decimal (s : string) (num : Z) (den : positive)
    (seen_dot seen_digit : bool) : option Q :=
  match s with
  | EmptyString => if seen_digit then Some (num # den) else None
  | String c s' =>
      match digit_value c with
      | Some d =>
          read_decimal s' (num * 10 + d)%Z
            (if seen_dot then (den * 10)%positive else den) seen_dot true
      | None =>
          if (code c =? 46)%N && negb seen_dot
          then read_decimal s' num den true seen_digit
          else None
      end
  end.

Definition example_runtime : PyRuntime :=
  {| py_eval := fun s => eval_list_display s BeforeList [];
     parse_numeric := fun s => read_decimal s 0%Z 1%positive false false |}.

(** One vocabulary for every field: the single term shoes, with idf 1. *)
Definition shoes_vectorizer : TfidfVectorizer :=
  {| features := [("shoes"%string, 1%R)] |}.

(** A vocabulary of two terms. *)
Definition red_shoes_vectorizer : TfidfVectorizer :=
  {| features := [("red"%string, 1%R); ("shoes"%string, 1%R)] |}.

Definition shoe_row : ProductRow :=
  {| product_name := Some "Shoes"%string;
     product_category_tree := Some "Shoes"%string;
     brand := Some "Shoes"%string;
     description := Some "shoes!"%string;
     extracted_specifications := Some "shoes"%string;
     retail_price := Some 100%Q;
     discounted_price := Some 80%Q;
     product_rating := RatingText "4.5"%string;
     image := Some "['http://img/a.jpg', 'http://img/b.jpg']"%string;
     product_url := Some "http://shop/a"%string |}.

(** A row with no retail value: price 0, discounted price 10, no rating. *)
Definition free_row : ProductRow :=
  {| product_name := Some "red shoes"%string;
     product_category_tree := None;
     brand := None;
     description := None;
     extracted_specifications := None;
     retail_price := Some 0%Q;
     discounted_price := Some 10%Q;
     product_rating := RatingText "No rating available"%string;
     image := Some "no image"%string;
     product_url := Some "http://shop/c"%string |}.

(** The same row with another image field. *)
Definition shoe_row_with_image (img : option string) : ProductRow :=
  {| product_name := product_name shoe_row;
     product_category_tree := product_category_tree shoe_row;
     brand := brand shoe_row;
     description := description shoe_row;
     extracted_specifications := extracted_specifications shoe_row;
     retail_price := retail_price shoe_row;
     discounted_price := discounted_price shoe_row;
     product_rating := product_rating shoe_row;
     image := img;
     product_url := product_url shoe_row |}.

Definition shoes_store (rows : list ProductRow) : Store :=
  {| df := rows;
     tfidf_name := shoes_vectorizer;
     tfidf_category := shoes_vectorizer;
     tfidf_brand := shoes_vectorizer;
     tfidf_description := shoes_vectorizer;
     tfidf_specifications := shoes_vectorizer |}.

(** A catalog of one row, and one of two rows with the same texts and
    different images. *)
Definition store_one : Store := shoes_store [shoe_row].
Definition store_two : Store :=
  shoes_store
    [shoe_row; shoe_row_with_image (Some "['http://img/c.jpg']"%string)].

(** A row whose name has two terms. *)
Definition red_shoe_row : ProductRow :=
  {| product_name := Some "Red Shoes"%string;
     product_category_tree := product_category_tree shoe_row;
     brand := brand shoe_row;
     description := description shoe_row;
     extracted_specifications := extracted_specifications shoe_row;
     retail_price := retail_price shoe_row;
     discounted_price := discounted_price shoe_row;
     product_rating := product_rating shoe_row;
     image := image shoe_row;
     product_url := product_url shoe_row |}.

(** A state whose name vocabulary is larger than the other four. *)
Definition store_mismatch : Store :=
  {| df := [red_shoe_row];
     tfidf_name := red_shoes_vectorizer;
     tfidf_category := shoes_vectorizer;
     tfidf_brand := shoes_vectorizer;
     tfidf_description := shoes_vectorizer;
     tfidf_specifications := shoes_vectorizer |}.

Definition shoe_summary : ProductSummary :=
  {| summary_image := PyStr "http://img/a.jpg";
     summary_name := Some "Shoes"%string;
     summary_price := Some 80%Q;
     summary_url := Some "http://shop/a"%string |}.

(** ** Orders on the ranking *)

(** The order a stable ascending sort puts (position, value) pairs in:
    by value, and by position between equal values. *)
Definition key_before (p q : nat * R) : Prop :=
  (snd p < snd q)%R \/ (snd p = snd q /\ (fst p < fst q)%nat).

(** The tie-break the specification describes: of two selected rows with
    equal combined scores, the one that comes first in the selection has the
    lower catalog index. *)
Definition ties_in_catalog_order (combined : vec) (top : list nat) : Prop :=
  forall i j a b,
    (i < j)%nat -> nth_error top i = Some a -> nth_error top j = Some b ->
    nth_error combined a = nth_error combined b -> (a < b)%nat.

(** How many positions the slice skips. *)
Definition skipped (n : nat) (top_n : Z) : nat :=
  Z.to_nat (if (- top_n <? 0)%Z
            then Z.max (Z.of_nat n + - top_n) 0
            else Z.min (- top_n) (Z.of_nat n)).


(** ** The endpoint and the query preprocessor *)

(** The value of a request parameter that may be left out. *)
Definition or_default (d : Q) (x : option Q) : Q :=
  match x with
  | Some v => v
  | None => d
  end.

(** The body of [search]: the thresholds left out of the request take the
    defaults of the signature, 99999, 0 and 0, and [top_n] is never passed,
    so it is 12. *)
Definition search {rt : PyRuntime} (st : Store) (query : string)
    (max_price min_discount min_rating : option Q)
  : outcome (list ProductSummary) :=
  get_relevant_products st query (or_default 99999 max_price)
    (or_default 0 min_discount) (or_default 0 min_rating) 12.

(** The two language libraries: [detect q] is the language code detected
    for [q], [translate lang q] the English text of [q] read as [lang];
    each is [None] when the library raises. *)
Class LangRuntime : Type := {
  detect : string -> option string;
  translate : string -> string -> option string
}.

(** [process_query]; [None] when detection or translation raises. *)
Definition process_query {lr : LangRuntime} (query : string) : option string :=
  match detect query with
  | None => None
  | Some detected_lang =>
      if negb (String.eqb detected_lang "en") then
        match translate detected_lang query with
        | None => None
        | Some translated => Some (normalize_text_simple (Some translated))
        end
      else Some (normalize_text_simple (Some query))
  end.

(** A language runtime for the examples: the text Bonjour! is French for
    Hello!, any other text is English. *)
Definition example_lang : LangRuntime :=
  {| detect := fun q => if String.eqb q "Bonjour!" then Some "fr"%string
                        else Some "en"%string;
     translate := fun _ q => if String.eqb q "Bonjour!" then Some "Hello!"%string
                             else Some q |}.

(** ** Conditions on the module state and on a query *)

Definition all_zero (v : vec) : Prop := Forall (fun x => x = 0%R) v.

(** No token of the normalized query is a term of the vocabulary. *)
Definition no_known_term (v : TfidfVectorizer) (query : string) : Prop :=
  Forall
    (fun ti =>
       term_count
         (tokenize (str_lower (normalize_text_simple (Some query)))) (fst ti)
       = 0%nat)
    (features v).

Definition unknown_query (st : Store) (query : string) : Prop :=
  no_known_term (tfidf_name st) query /\
  no_known_term (tfidf_category st) query /\
  no_known_term (tfidf_brand st) query /\
  no_known_term (tfidf_description st) query /\
  no_known_term (tfidf_specifications st) query.

(** The image field of the row evaluates to a list, or fails to evaluate. *)
Definition image_list_or_failure {rt : PyRuntime} (r : ProductRow) : Prop :=
  exists l, try_eval_image (image r) = PyList l.

(** The vocabulary terms of the five fields. *)
Definition known_terms (st : Store) : list string :=
  map fst (features (tfidf_name st))
  ++ map fst (features (tfidf_category st))
  ++ map fst (features (tfidf_brand st))
  ++ map fst (features (tfidf_description st))
  ++ map fst (features (tfidf_specifications st)).

(** The tokens the vectorizers see in a query. *)
Definition query_tokens (query : string) : list string :=
  tokenize (str_lower (normalize_text_simple (Some query))).

(** Two queries have every vocabulary term the same number of times. *)
Definition same_known_counts (st : Store) (q1 q2 : string) : Prop :=
  Forall
    (fun t => term_count (query_tokens q1) t = term_count (query_tokens q2) t)
    (known_terms st).

(** ** The normalizer on a wider alphabet *)









(** ** A runtime that also reads integer literals *)

Fixpoint read_digits (s : string) (acc : Z) : option Z :=
  match s with
  | EmptyString => Some acc
  | String c s' =>
      match digit_value c with
      | Some d => read_digits s' (acc * 10 + d)%Z
      | None => None
      end
  end.

(** A reader of decimal integer literals without sign, such as 5 and 0; a
    literal with a leading zero is left to the other reader. *)
Definition eval_int_literal (s : string) : option pyobj :=
  match s with
  | EmptyString => None
  | String c s' =>
      if (code c =? 48)%N then
        match s' with
        | EmptyString => Some (PyInt 0)
        | String _ _ => None
        end
      else option_map PyInt (read_digits s 0%Z)
  end.

Definition literal_runtime : PyRuntime :=
  {| py_eval := fun s =>
       match eval_int_literal s with
       | Some v => Some v
       | None => eval_list_display s BeforeList []
       end;
     parse_numeric := fun s => read_decimal s 0%Z 1%positive false false |}.

(** ** The pipeline with an interpreter that has state *)

(** [eval] runs the text of the image field in the namespace of the
    module, so it may read and change what lives there. [world] is that
    part of the interpreter state; [eval_in s w] is the value of [eval(s)]
    in the state [w], [None] when it raises, and the state it leaves. *)
Class PyInterpreter : Type := {
  world : Type;
  eval_in : string -> world -> option pyobj * world;
  numeric_of : string -> option Q
}.

(** The runtime whose [eval] is the function [f] of the text. *)
Definition runtime_of (f : string -> option pyobj) (num : string -> option Q)
  : PyRuntime :=
  {| py_eval := f; parse_numeric := num |}.

Section StatefulPipeline.

Context {interp : PyInterpreter}.

(** [eval(row['image'])] under [try], with the state it leaves: what
    [eval] did before it raised is not undone. *)
Definition try_eval_image_in (cell : option string) (w : world) : pyobj * world :=
  match cell with
  | Some s =>
      let (v, w') := eval_in s w in
      (match v with
       | Some x => x
       | None => PyList []
       end, w')
  | None => (PyList [], w)
  end.

Definition derive_in (r : ProductRow) : ResultRow :=
  {| row := r;
     rating_numeric :=
       match product_rating r with
       | RatingNum q => Some q
       | RatingText s => numeric_of s
       | RatingMissing => None
       end;
     discount_percentage := calculate_discount_percentage r |}.

Fixpoint products_loop_in (rows : list ResultRow) (products : list ProductSummary)
    (w : world) : outcome (list ProductSummary) * world :=
  match rows with
  | [] => (Ok products, w)
  | r :: rest =>
      let (image_urls, w') := try_eval_image_in (image (row r)) w in
      if truthy image_urls then
        match getitem0 image_urls with
        | Ok first =>
            products_loop_in rest (products ++ [summary_of_row first r]) w'
        | Raise e => (Raise e, w')
        end
      else products_loop_in rest products w'
  end.

Definition get_relevant_products_in (st : Store) (query : string)
    (max_price min_discount min_rating : Q) (top_n : Z) (w : world)
  : outcome (list ProductSummary) * world :=
  if str_is_empty (strip query) then (Ok [], w)
  else
    match combined_similarities st query with
    | Raise e => (Raise e, w)
    | Ok combined =>
        match iloc (df st) (top_indices combined top_n) with
        | Raise e => (Raise e, w)
        | Ok selected =>
            products_loop_in
              (filter (filter_mask max_price min_discount min_rating)
                 (map derive_in selected)) [] w
        end
    end.




End StatefulPipeline.






(** ** Catalogs with two terms *)

(** The vocabulary boots, shoes, with the given inverse document
    frequencies. *)
Definition two_term_vectorizer (idf_boots idf_shoes : R) : TfidfVectorizer :=
  {| features := [("boots"%string, idf_boots); ("shoes"%string, idf_shoes)] |}.

Definition boots_row (img : option string) : ProductRow :=
  {| product_name := Some "Boots"%string;
     product_category_tree := Some "Boots"%string;
     brand := Some "Boots"%string;
     description := Some "boots."%string;
     extracted_specifications := Some "boots"%string;
     retail_price := Some 60%Q;
     discounted_price := Some 60%Q;
     product_rating := RatingText "3"%string;
     image := img;
     product_url := Some "http://shop/b"%string |}.

Definition two_term_store (idf_boots idf_shoes : R) (rows : list ProductRow)
  : Store :=
  {| df := rows;
     tfidf_name := two_term_vectorizer idf_boots idf_shoes;
     tfidf_category := two_term_vectorizer idf_boots idf_shoes;
     tfidf_brand := two_term_vectorizer idf_boots idf_shoes;
     tfidf_description := two_term_vectorizer idf_boots idf_shoes;
     tfidf_specifications := two_term_vectorizer idf_boots idf_shoes |}.

(** Five rows: shoes, shoes, boots, boots, shoes. The inverse document
    frequencies are those the fit gives: ln ((1 + 5) / (1 + df)) + 1. *)
Definition store_five : Store :=
  two_term_store (ln (6 / 3) + 1) (ln (6 / 4) + 1)
    [shoe_row;
     shoe_row_with_image (Some "['http://img/c.jpg']"%string);
     boots_row (Some "['http://img/d.jpg']"%string);
     boots_row (Some "['http://img/e.jpg']"%string);
     shoe_row_with_image (Some "['http://img/f.jpg']"%string)].

(** Two rows: shoes, boots; each term is in one document of two. *)
Definition store_pair : Store :=
  two_term_store (ln (3 / 2) + 1) (ln (3 / 2) + 1)
    [shoe_row; boots_row (Some "['http://img/d.jpg']"%string)].

(** * Properties *)

(** ** Characters, by enumeration of the 256 code points *)

Ltac each_char c :=
  destruct c as [b0 b1 b2 b3 b4 b5 b6 b7];
  destruct b0, b1, b2, b3, b4, b5, b6, b7; vm_compute; try reflexivity;
  try discriminate; auto.

Lemma lower_char_not_upper (c : ascii) : is_upper (lower_char c) = false.
Proof. each_char c. Qed.



Lemma lower_char_fixed (c : ascii) : is_upper c = false -> lower_char c = c.
Proof. unfold lower_char. intros ->. reflexivity. Qed.

(** ** Strings *)

Lemma re_sub_nonword_kept (s : string) :
  all_chars (fun c => is_word c || is_space c) (re_sub_nonword s) = true.
Proof.
  induction s as [|c s IH]; simpl; [reflexivity|].
  destruct (is_word c || is_space c) eqn:E; simpl; [rewrite E|]; exact IH.
Qed.

Lemma re_sub_nonword_fixed (s : string) :
  all_chars (fun c => is_word c || is_space c) s = true ->
  re_sub_nonword s = s.
Proof.
  induction s as [|c s IH]; simpl; [reflexivity|].
  intros H. apply andb_prop in H. destruct H as [Hc Hs].
  rewrite Hc, (IH Hs). reflexivity.
Qed.

Lemma str_lower_fixed (s : string) :
  all_chars (fun c => negb (is_upper c)) s = true -> str_lower s = s.
Proof.
  induction s as [|c s IH]; simpl; [reflexivity|].
  intros H. apply andb_prop in H. destruct H as [Hc Hs].
  rewrite (IH Hs), lower_char_fixed; [reflexivity|].
  now apply negb_true_iff.
Qed.

Lemma str_lower_no_upper (s : string) :
  all_chars (fun c => negb (is_upper c)) (str_lower s) = true.
Proof.
  induction s as [|c s IH]; simpl; [reflexivity|].
  now rewrite lower_char_not_upper, IH.
Qed.

Lemma re_sub_nonword_all (p : ascii -> bool) (s : string) :
  all_chars p s = true -> all_chars p (re_sub_nonword s) = true.
Proof.
  induction s as [|c s IH]; simpl; [reflexivity|].
  intros H. apply andb_prop in H. destruct H as [Hc Hs].
  destruct (is_word c || is_space c); simpl; [rewrite Hc|]; auto.
Qed.

Lemma all_chars_and (p q : ascii -> bool) (s : string) :
  all_chars p s = true -> all_chars q s = true ->
  all_chars (fun c => p c && q c) s = true.
Proof.
  induction s as [|c s IH]; simpl; [reflexivity|].
  intros Hp Hq. apply andb_prop in Hp, Hq.
  destruct Hp as [-> Hp], Hq as [-> Hq]. simpl. auto.
Qed.

Lemma strip_blank_iff (s : string) :
  strip s = EmptyString <-> all_chars is_space s = true.
Proof.
  unfold strip. induction s as [|c s IH]; simpl; [tauto|].
  destruct (rstrip s) as [|d r] eqn:Er.
  - destruct (is_space c) eqn:Ec; simpl.
    + simpl in IH. tauto.
    + rewrite Ec. split; discriminate.
  - simpl. destruct (is_space c) eqn:Ec; simpl.
    + exact IH.
    + split; discriminate.
Qed.

Lemma normalized_no_upper (x : option string) :
  all_chars (fun c => negb (is_upper c)) (normalize_text_simple x) = true.
Proof.
  destruct x as [t|]; simpl; [|reflexivity].
  apply re_sub_nonword_all, str_lower_no_upper.
Qed.

Lemma normalized_kept (x : option string) :
  all_chars (fun c => is_word c || is_space c) (normalize_text_simple x) = true.
Proof.
  destruct x as [t|]; simpl; [|reflexivity]. apply re_sub_nonword_kept.
Qed.

(** ** C7: the normalizer *)









(** ** Shapes *)

Lemma length_vscale (a : R) (v : vec) : List.length (vscale a v) = List.length v.
Proof. apply length_map. Qed.

Lemma length_zip_add (u v : vec) :
  List.length (zip_add u v) = Nat.min (List.length u) (List.length v).
Proof. unfold zip_add. now rewrite length_map, length_combine. Qed.

Lemma length_l2_normalize (v : vec) : List.length (l2_normalize v) = List.length v.
Proof.
  unfold l2_normalize. destruct (Req_dec_T (dot v v) 0); [reflexivity|].
  apply length_map.
Qed.

Lemma length_transform (v : TfidfVectorizer) (doc : string) :
  List.length (transform v doc) = vocabulary_size v.
Proof. unfold transform. rewrite length_l2_normalize. apply length_map. Qed.

Lemma vadd_same (u v : vec) :
  List.length u = List.length v -> vadd u v = Ok (zip_add u v).
Proof. unfold vadd. intros ->. now rewrite Nat.eqb_refl. Qed.

Lemma vadd_diff (u v : vec) :
  List.length u <> List.length v -> vadd u v = Raise ValueError.
Proof.
  unfold vadd. intros H. apply Nat.eqb_neq in H. now rewrite H.
Qed.

Lemma vscale_map {A : Type} (a : R) (f : A -> R) (l : list A) :
  vscale a (map f l) = map (fun x => (a * f x)%R) l.
Proof. unfold vscale. apply map_map. Qed.

Lemma zip_add_map {A : Type} (f g : A -> R) (l : list A) :
  zip_add (map f l) (map g l) = map (fun x => (f x + g x)%R) l.
Proof.
  unfold zip_add. induction l as [|x l IH]; simpl; [reflexivity|].
  now rewrite IH.
Qed.

Lemma nth_vscale (a : R) (v : vec) (k : nat) :
  nth k (vscale a v) 0%R = (a * nth k v 0)%R.
Proof.
  unfold vscale. revert k. induction v as [|x v IH]; intros [|k]; simpl;
    try lra. apply IH.
Qed.

Lemma nth_zip_add (u v : vec) (k : nat) :
  List.length u = List.length v ->
  nth k (zip_add u v) 0%R = (nth k u 0 + nth k v 0)%R.
Proof.
  unfold zip_add. revert v k.
  induction u as [|x u IH]; intros [|y v] [|k] H; simpl in *;
    try discriminate; try lra.
  apply IH. now injection H.
Qed.

Lemma cosine_similarity_fit (qv : vec) (v : TfidfVectorizer) (docs : list string) :
  List.length qv = vocabulary_size v ->
  cosine_similarity qv (fit_transform v docs)
  = Ok (map (fun d => cosine qv (transform v d)) docs).
Proof.
  unfold cosine_similarity, fit_transform. simpl. intros ->.
  now rewrite Nat.eqb_refl, map_map.
Qed.

(** ** Query vectorization *)

Ltac shape :=
  repeat (rewrite ?length_zip_add, ?length_vscale, ?length_transform,
            ?length_map, ?Nat.min_id);
  try congruence.

Lemma weighted_vector_defined (st : Store) (query : string) :
  same_vocabulary_sizes st ->
  get_weighted_tfidf_vector st query = Ok (merged_query_vector st query).
Proof.
  intros (H2 & H3 & H4 & H5).
  unfold get_weighted_tfidf_vector, merged_query_vector.
  rewrite vadd_same by shape. cbn [bind].
  rewrite vadd_same by (shape; rewrite <- H2; shape). cbn [bind].
  rewrite vadd_same by (shape; rewrite <- H2, <- H3; shape). cbn [bind].
  rewrite vadd_same by (shape; rewrite <- H2, <- H3, <- H4; shape).
  reflexivity.
Qed.

Lemma length_merged_query_vector (st : Store) (query : string) :
  same_vocabulary_sizes st ->
  List.length (merged_query_vector st query) = vocabulary_size (tfidf_name st).
Proof.
  intros (H2 & H3 & H4 & H5). unfold merged_query_vector.
  shape. rewrite <- H2, <- H3, <- H4, <- H5. now rewrite !Nat.min_id.
Qed.

Lemma weighted_vector_undefined (st : Store) (query : string) :
  ~ same_vocabulary_sizes st ->
  get_weighted_tfidf_vector st query = Raise ValueError.
Proof.
  intros Hn. unfold get_weighted_tfidf_vector.
  destruct (Nat.eq_dec (vocabulary_size (tfidf_name st))
              (vocabulary_size (tfidf_category st))) as [H2|H2];
    [|rewrite vadd_diff by shape; reflexivity].
  rewrite vadd_same by shape. cbn [bind].
  destruct (Nat.eq_dec (vocabulary_size (tfidf_name st))
              (vocabulary_size (tfidf_brand st))) as [H3|H3];
    [|rewrite vadd_diff by (shape; rewrite <- H2; shape); reflexivity].
  rewrite vadd_same by (shape; rewrite <- H2; shape). cbn [bind].
  destruct (Nat.eq_dec (vocabulary_size (tfidf_name st))
              (vocabulary_size (tfidf_description st))) as [H4|H4];
    [|rewrite vadd_diff by (shape; rewrite <- H2, <- H3; shape); reflexivity].
  rewrite vadd_same by (shape; rewrite <- H2, <- H3; shape). cbn [bind].
  destruct (Nat.eq_dec (vocabulary_size (tfidf_name st))
              (vocabulary_size (tfidf_specifications st))) as [H5|H5];
    [|rewrite vadd_diff by (shape; rewrite <- H2, <- H3, <- H4; shape);
      reflexivity].
  exfalso. apply Hn. repeat split; assumption.
Qed.

Lemma same_vocabulary_sizes_dec (st : Store) :
  {same_vocabulary_sizes st} + {~ same_vocabulary_sizes st}.
Proof.
  unfold same_vocabulary_sizes.
  destruct (Nat.eq_dec (vocabulary_size (tfidf_name st))
              (vocabulary_size (tfidf_category st)));
  destruct (Nat.eq_dec (vocabulary_size (tfidf_name st))
              (vocabulary_size (tfidf_brand st)));
  destruct (Nat.eq_dec (vocabulary_size (tfidf_name st))
              (vocabulary_size (tfidf_description st)));
  destruct (Nat.eq_dec (vocabulary_size (tfidf_name st))
              (vocabulary_size (tfidf_specifications st)));
  solve [left; tauto | right; tauto].
Qed.

(** Position by position, the merged vector is the weighted sum of the five
    per-field query vectors. *)
Lemma nth_merged_query_vector (st : Store) (query : string) (k : nat) :
  same_vocabulary_sizes st ->
  let q := normalize_text_simple (Some query) in
  nth k (merged_query_vector st query) 0%R
  = (weights Name * nth k (transform (tfidf_name st) q) 0
     + weights Category * nth k (transform (tfidf_category st) q) 0
     + weights Brand * nth k (transform (tfidf_brand st) q) 0
     + weights Description * nth k (transform (tfidf_description st) q) 0
     + weights Specifications * nth k (transform (tfidf_specifications st) q) 0)%R.
Proof.
  intros (H2 & H3 & H4 & H5) q. unfold merged_query_vector. fold q.
  rewrite nth_zip_add by (shape; rewrite <- H2, <- H3, <- H4, <- H5; shape).
  rewrite nth_zip_add by (shape; rewrite <- H2, <- H3, <- H4; shape).
  rewrite nth_zip_add by (shape; rewrite <- H2, <- H3; shape).
  rewrite nth_zip_add by shape.
  now rewrite !nth_vscale.
Qed.

(** ** Combined similarities *)

Lemma combined_similarities_defined (st : Store) (query : string) :
  same_vocabulary_sizes st ->
  combined_similarities st query
  = Ok (map (weighted_score st (merged_query_vector st query)) (df st)).
Proof.
  intros Hs. pose proof (length_merged_query_vector st query Hs) as Hl.
  destruct Hs as (H2 & H3 & H4 & H5).
  unfold combined_similarities.
  rewrite weighted_vector_defined by (repeat split; assumption). cbn [bind].
  unfold tfidf_name_matrix, tfidf_category_matrix, tfidf_brand_matrix,
    tfidf_description_matrix, tfidf_specifications_matrix.
  rewrite !cosine_similarity_fit by congruence. cbn [bind].
  rewrite !map_map, !vscale_map.
  rewrite vadd_same by shape. rewrite zip_add_map. cbn [bind].
  rewrite vadd_same by shape. rewrite zip_add_map. cbn [bind].
  rewrite vadd_same by shape. rewrite zip_add_map. cbn [bind].
  rewrite vadd_same by shape. rewrite zip_add_map.
  reflexivity.
Qed.

Lemma combined_similarities_undefined (st : Store) (query : string) :
  ~ same_vocabulary_sizes st ->
  combined_similarities st query = Raise ValueError.
Proof.
  intros Hn. unfold combined_similarities.
  now rewrite weighted_vector_undefined.
Qed.

(** ** Cosine similarity on one-column spaces *)

Lemma l2_normalize_singleton (a : R) : (0 < a)%R -> l2_normalize [a] = [1%R].
Proof.
  intros Ha. unfold l2_normalize, dot. simpl.
  destruct (Req_dec_T (a * a + 0) 0) as [E|_]; [nra|].
  replace (a * a + 0)%R with (a * a)%R by ring.
  rewrite sqrt_square by lra. f_equal. field. lra.
Qed.

Lemma cosine_singletons (a b : R) :
  (0 < a)%R -> (0 < b)%R -> cosine [a] [b] = 1%R.
Proof.
  intros Ha Hb. unfold cosine.
  rewrite !l2_normalize_singleton by assumption.
  unfold dot. simpl. ring.
Qed.

Lemma transform_shoes (doc : string) :
  term_count (tokenize (str_lower doc)) "shoes" = 1%nat ->
  transform shoes_vectorizer doc = [1%R].
Proof.
  intros H. unfold transform, shoes_vectorizer. cbn [features map fst snd].
  rewrite H. cbn [INR]. apply l2_normalize_singleton. lra.
Qed.

Lemma dot_zeros {A : Type} (l : list A) :
  dot (map (fun _ => 0%R) l) (map (fun _ => 0%R) l) = 0%R.
Proof.
  unfold dot. induction l as [|x l IH]; simpl; [reflexivity|].
  rewrite IH. ring.
Qed.

Lemma transform_no_token (v : TfidfVectorizer) (doc : string) :
  tokenize (str_lower doc) = [] ->
  transform v doc = map (fun _ => 0%R) (features v).
Proof.
  intros H. unfold transform. rewrite H.
  assert (E : map (fun ti : string * R => (INR (term_count [] (fst ti)) * snd ti)%R)
                (features v) = map (fun _ => 0%R) (features v)).
  { apply map_ext. intros ti. simpl. ring. }
  rewrite E. unfold l2_normalize. rewrite dot_zeros.
  destruct (Req_dec_T 0 0) as [_|Hn]; [reflexivity|]. now elim Hn.
Qed.

Lemma same_vocabulary_sizes_shoes (rows : list ProductRow) :
  same_vocabulary_sizes (shoes_store rows).
Proof. repeat split. Qed.

Lemma merged_shoes (rows : list ProductRow) :
  merged_query_vector (shoes_store rows) "shoes"
  = [(0.4 * 1 + 0.2 * 1 + 0.15 * 1 + 0.15 * 1 + 0.1 * 1)%R].
Proof.
  unfold merged_query_vector, shoes_store.
  cbn [tfidf_name tfidf_category tfidf_brand tfidf_description
       tfidf_specifications].
  rewrite transform_shoes by (vm_compute; reflexivity).
  reflexivity.
Qed.

Lemma row_vector_shoe_row (rows : list ProductRow) (f : field) :
  row_vector (shoes_store rows) f shoe_row = [1%R].
Proof.
  destruct f; unfold row_vector, shoes_store;
    cbn [tfidf_name tfidf_category tfidf_brand tfidf_description
         tfidf_specifications];
    apply transform_shoes; vm_compute; reflexivity.
Qed.

Lemma weighted_score_shoe_row (rows : list ProductRow) :
  weighted_score (shoes_store rows)
    (merged_query_vector (shoes_store rows) "shoes") shoe_row = 1%R.
Proof.
  unfold weighted_score. rewrite merged_shoes, !row_vector_shoe_row.
  rewrite cosine_singletons by lra. unfold weights. lra.
Qed.

Lemma spec_combined_score_shoe_row (rows : list ProductRow) :
  spec_combined_score (shoes_store rows) "shoes" shoe_row = 5%R.
Proof.
  unfold spec_combined_score, spec_query_vectors.
  rewrite !row_vector_shoe_row. unfold shoes_store.
  cbn [tfidf_name tfidf_category tfidf_brand tfidf_description
       tfidf_specifications].
  rewrite transform_shoes by (vm_compute; reflexivity).
  unfold vscale, weights. cbn [map].
  rewrite !cosine_singletons by lra. lra.
Qed.

(** ** C1: how the combined score is built *)

(** C1, the claim as stated, fails: on the one-row catalog and the query
    shoes every per-field similarity is 1, the plain sum of the five is 5,
    and the code's combined score is 1, the sum of the five weights. *)
Lemma combined_score_not_plain_sum :
  str_is_empty (strip "shoes") = false /\
  combined_similarities store_one "shoes" = Ok [1%R] /\
  map (spec_combined_score store_one "shoes") (df store_one) = [5%R] /\
  combined_similarities store_one "shoes"
  <> Ok (map (spec_combined_score store_one "shoes") (df store_one)).
Proof.
  assert (Hc : combined_similarities store_one "shoes" = Ok [1%R]).
  { unfold store_one.
    rewrite combined_similarities_defined by apply same_vocabulary_sizes_shoes.
    cbn [df shoes_store map]. now rewrite weighted_score_shoe_row. }
  assert (Hs : map (spec_combined_score store_one "shoes") (df store_one) = [5%R]).
  { unfold store_one. cbn [df shoes_store map].
    now rewrite spec_combined_score_shoe_row. }
  split; [reflexivity|]. split; [exact Hc|]. split; [exact Hs|].
  rewrite Hc, Hs. intros E. injection E. lra.
Qed.

(** C1, amended. When the five vocabularies have one size, the query
    becomes a single vector, at each position the weighted sum of the five
    per-field query vectors, and the combined score of each catalog row is
    the weighted sum of the five similarities between that single vector and
    the row: the weights enter at vectorization and again at combination. *)
Theorem combined_score_weighted_sum (st : Store) (query : string) :
  same_vocabulary_sizes st ->
  get_weighted_tfidf_vector st query = Ok (merged_query_vector st query) /\
  (forall k,
     let q := normalize_text_simple (Some query) in
     nth k (merged_query_vector st query) 0%R
     = (weights Name * nth k (transform (tfidf_name st) q) 0
        + weights Category * nth k (transform (tfidf_category st) q) 0
        + weights Brand * nth k (transform (tfidf_brand st) q) 0
        + weights Description * nth k (transform (tfidf_description st) q) 0
        + weights Specifications
          * nth k (transform (tfidf_specifications st) q) 0)%R) /\
  combined_similarities st query
  = Ok (map (fun r =>
               (weights Name
                * cosine (merged_query_vector st query) (row_vector st Name r)
                + weights Category
                  * cosine (merged_query_vector st query) (row_vector st Category r)
                + weights Brand
                  * cosine (merged_query_vector st query) (row_vector st Brand r)
                + weights Description
                  * cosine (merged_query_vector st query)
                      (row_vector st Description r)
                + weights Specifications
                  * cosine (merged_query_vector st query)
                      (row_vector st Specifications r))%R)
          (df st)).
Proof.
  intros Hs. split; [now apply weighted_vector_defined|]. split.
  - intros k. now apply nth_merged_query_vector.
  - now apply combined_similarities_defined.
Qed.

Lemma combined_score_weighted_sum_witness :
  same_vocabulary_sizes store_one /\
  combined_similarities store_one "shoes"
  = Ok (map (weighted_score store_one (merged_query_vector store_one "shoes"))
          (df store_one)).
Proof.
  split.
  - apply same_vocabulary_sizes_shoes.
  - apply (combined_score_weighted_sum store_one "shoes").
    apply same_vocabulary_sizes_shoes.
Defined.

(** ** The stable sort behind [argsort] *)

Lemma Forall_insert_key (P : nat * R -> Prop) (p : nat * R) (l : list (nat * R)) :
  Forall P (insert_key p l) <-> P p /\ Forall P l.
Proof.
  induction l as [|q l IH]; simpl.
  - split; [intros H; inversion H; auto | intros [H _]; auto].
  - destruct (Rlt_dec (snd p) (snd q)).
    + split; [intros H; inversion H; auto | intros [H1 H2]; auto].
    + split.
      * intros H. inversion H as [|? ? Hq Hr]; subst.
        apply IH in Hr. destruct Hr. auto.
      * intros [Hp H]. inversion H as [|? ? Hq Hr]; subst.
        constructor; [assumption|]. apply IH. auto.
Qed.

Lemma Forall_sort_from (P : nat * R -> Prop) (l acc : list (nat * R)) :
  Forall P (fold_left (fun a p => insert_key p a) l acc)
  <-> Forall P l /\ Forall P acc.
Proof.
  revert acc. induction l as [|p l IH]; intros acc; simpl.
  - split; [auto | tauto].
  - rewrite IH, Forall_insert_key. split.
    + intros (Hl & Hp & Ha). auto.
    + intros (Hl & Ha). inversion Hl; subst. auto.
Qed.

Lemma length_insert_key (p : nat * R) (l : list (nat * R)) :
  List.length (insert_key p l) = S (List.length l).
Proof.
  induction l as [|q l IH]; simpl; [reflexivity|].
  destruct (Rlt_dec (snd p) (snd q)); simpl; [reflexivity|].
  now rewrite IH.
Qed.

Lemma length_sort_from (l acc : list (nat * R)) :
  List.length (fold_left (fun a p => insert_key p a) l acc)
  = (List.length l + List.length acc)%nat.
Proof.
  revert acc. induction l as [|p l IH]; intros acc; simpl; [reflexivity|].
  rewrite IH, length_insert_key. lia.
Qed.

Lemma key_before_value (p q : nat * R) : key_before p q -> (snd p <= snd q)%R.
Proof. intros [H|[H _]]; lra. Qed.

Lemma insert_key_sorted (p : nat * R) (l : list (nat * R)) :
  StronglySorted key_before l ->
  Forall (fun q => (fst q < fst p)%nat) l ->
  StronglySorted key_before (insert_key p l).
Proof.
  induction l as [|q l IH]; intros Hs Hi; simpl.
  - repeat constructor.
  - apply StronglySorted_inv in Hs. destruct Hs as [Hs Hq].
    inversion Hi as [|? ? Hqp Hl]; subst.
    destruct (Rlt_dec (snd p) (snd q)) as [Hlt|Hge].
    + constructor; [constructor; assumption|].
      constructor; [left; assumption|].
      eapply Forall_impl; [|exact Hq].
      intros r Hr. left. apply key_before_value in Hr. lra.
    + constructor; [apply IH; assumption|].
      apply Forall_insert_key. split; [|assumption].
      destruct (Rlt_dec (snd q) (snd p)) as [Hlt|Hge'].
      * left. assumption.
      * right. split; [lra | assumption].
Qed.

Lemma sort_from_sorted (a : vec) (s : nat) (acc : list (nat * R)) :
  StronglySorted key_before acc ->
  Forall (fun q => (fst q < s)%nat) acc ->
  StronglySorted key_before
    (fold_left (fun a p => insert_key p a)
       (combine (seq s (List.length a)) a) acc).
Proof.
  revert s acc. induction a as [|x a IH]; intros s acc Hs Hi; simpl.
  - assumption.
  - apply IH.
    + apply insert_key_sorted; assumption.
    + apply Forall_insert_key. split; [simpl; lia|].
      eapply Forall_impl; [|exact Hi]. simpl. intros; lia.
Qed.

Lemma combine_seq_lookup (a : vec) (s : nat) :
  Forall (fun p => (s <= fst p)%nat /\ nth_error a (fst p - s) = Some (snd p))
    (combine (seq s (List.length a)) a).
Proof.
  revert s. induction a as [|x a IH]; intros s; simpl; constructor.
  - simpl. rewrite Nat.sub_diag. auto.
  - eapply Forall_impl; [|apply (IH (S s))].
    intros [i y] [Hle Hn]. simpl in *. split; [lia|].
    replace (i - s)%nat with (S (i - S s)) by lia. exact Hn.
Qed.

Lemma sort_keys_sorted (a : vec) :
  StronglySorted key_before (sort_keys (combine (seq 0 (List.length a)) a)).
Proof. apply sort_from_sorted; constructor. Qed.

Lemma sort_keys_lookup (a : vec) :
  Forall (fun p => nth_error a (fst p) = Some (snd p))
    (sort_keys (combine (seq 0 (List.length a)) a)).
Proof.
  apply Forall_sort_from. split; [|constructor].
  eapply Forall_impl; [|apply (combine_seq_lookup a 0)].
  intros p [_ H]. now rewrite Nat.sub_0_r in H.
Qed.

Lemma length_argsort (a : vec) : List.length (argsort a) = List.length a.
Proof.
  unfold argsort, sort_keys.
  rewrite length_map, length_sort_from, length_combine, length_seq.
  simpl. rewrite Nat.min_id. lia.
Qed.

Lemma argsort_in_range (a : vec) :
  Forall (fun i => (i < List.length a)%nat) (argsort a).
Proof.
  unfold argsort. apply Forall_map.
  eapply Forall_impl; [|apply sort_keys_lookup].
  intros p H. apply nth_error_Some. rewrite H. discriminate.
Qed.

(** ** Sorted lists under [skipn], [rev] and lookup *)

Lemma StronglySorted_skipn {A : Type} (R : A -> A -> Prop) (k : nat) (l : list A) :
  StronglySorted R l -> StronglySorted R (skipn k l).
Proof.
  revert l. induction k as [|k IH]; intros l H; [exact H|].
  destruct l as [|x l]; [exact H|]. simpl.
  apply IH. now apply StronglySorted_inv in H.
Qed.

Lemma StronglySorted_snoc {A : Type} (R : A -> A -> Prop) (l : list A) (a : A) :
  StronglySorted R l -> Forall (fun x => R x a) l ->
  StronglySorted R (l ++ [a]).
Proof.
  induction l as [|x l IH]; intros Hs Hf; simpl.
  - repeat constructor.
  - apply StronglySorted_inv in Hs. destruct Hs as [Hs Hx].
    inversion Hf; subst. constructor; [auto|].
    apply Forall_app. split; [assumption | repeat constructor; assumption].
Qed.

Lemma StronglySorted_rev {A : Type} (R : A -> A -> Prop) (l : list A) :
  StronglySorted R l -> StronglySorted (fun x y => R y x) (rev l).
Proof.
  induction 1 as [|a l Hs IH Ha]; simpl; [constructor|].
  apply StronglySorted_snoc; [assumption|].
  apply Forall_rev. exact Ha.
Qed.

Lemma StronglySorted_nth {A : Type} (R : A -> A -> Prop) (l : list A) :
  StronglySorted R l ->
  forall i j x y,
    (i < j)%nat -> nth_error l i = Some x -> nth_error l j = Some y -> R x y.
Proof.
  induction 1 as [|a l Hs IH Ha]; intros i j x y Hij Hi Hj.
  - destruct i; discriminate.
  - destruct j as [|j]; [lia|]. destruct i as [|i]; simpl in *.
    + injection Hi as <-. apply nth_error_In in Hj.
      rewrite Forall_forall in Ha. now apply Ha.
    + apply (IH i j); [lia | assumption | assumption].
Qed.

(** ** The selection [top_indices] *)

Lemma top_indices_pairs (combined : vec) (top_n : Z) :
  top_indices combined top_n
  = map fst
      (rev (skipn (skipped (List.length combined) top_n)
              (sort_keys (combine (seq 0 (List.length combined)) combined)))).
Proof.
  unfold top_indices, slice_from, skipped. rewrite length_argsort.
  unfold argsort. now rewrite skipn_map, map_rev.
Qed.

Lemma length_top_indices (combined : vec) (top_n : Z) :
  List.length (top_indices combined top_n)
  = (List.length combined - skipped (List.length combined) top_n)%nat.
Proof.
  unfold top_indices, slice_from. rewrite length_rev, length_skipn.
  rewrite length_argsort. reflexivity.
Qed.

Lemma top_indices_in_range (combined : vec) (top_n : Z) :
  Forall (fun i => (i < List.length combined)%nat) (top_indices combined top_n).
Proof.
  unfold top_indices, slice_from. apply Forall_rev.
  set (k := Z.to_nat _). clearbody k.
  pose proof (argsort_in_range combined) as H.
  rewrite Forall_forall in *. intros i Hi. apply H.
  rewrite <- (firstn_skipn k). apply in_or_app. now right.
Qed.

Lemma top_indices_order (combined : vec) (top_n : Z) (i j a b : nat) (x y : R) :
  (i < j)%nat ->
  nth_error (top_indices combined top_n) i = Some a ->
  nth_error (top_indices combined top_n) j = Some b ->
  nth_error combined a = Some x ->
  nth_error combined b = Some y ->
  (y <= x)%R /\ (x = y -> (b < a)%nat).
Proof.
  intros Hij Ha Hb Hx Hy. rewrite top_indices_pairs in Ha, Hb.
  set (T := rev _) in *.
  assert (Hs : StronglySorted (fun p q => key_before q p) T).
  { apply StronglySorted_rev, StronglySorted_skipn, sort_keys_sorted. }
  assert (Hl : Forall (fun p => nth_error combined (fst p) = Some (snd p)) T).
  { apply Forall_rev. pose proof (sort_keys_lookup combined) as H.
    rewrite Forall_forall in *. intros p Hp. apply H.
    rewrite <- (firstn_skipn (skipped (List.length combined) top_n)).
    apply in_or_app. now right. }
  rewrite nth_error_map in Ha, Hb.
  destruct (nth_error T i) as [p|] eqn:Ep; [|discriminate].
  destruct (nth_error T j) as [q|] eqn:Eq; [|discriminate].
  simpl in Ha, Hb. injection Ha as <-. injection Hb as <-.
  rewrite Forall_forall in Hl.
  pose proof (Hl p (nth_error_In _ _ Ep)) as Lp.
  pose proof (Hl q (nth_error_In _ _ Eq)) as Lq.
  rewrite Lp in Hx. rewrite Lq in Hy. injection Hx as <-. injection Hy as <-.
  pose proof (StronglySorted_nth _ _ Hs i j p q Hij Ep Eq) as [Hlt|[He Hlt]].
  - split; [lra | intros E; lra].
  - split; [lra | intros _; exact Hlt].
Qed.

Lemma argsort_singleton (x : R) : argsort [x] = [0%nat].
Proof. reflexivity. Qed.

Lemma argsort_tie (x : R) : argsort [x; x] = [0%nat; 1%nat].
Proof.
  unfold argsort, sort_keys.
  cbn [List.length seq combine fold_left insert_key snd].
  destruct (Rlt_dec x x) as [H|_]; [lra | reflexivity].
Qed.

Lemma top_indices_singleton (x : R) (top_n : Z) :
  (0 <= top_n)%Z -> top_indices [x] top_n = [0%nat].
Proof.
  intros H. unfold top_indices, slice_from. rewrite argsort_singleton.
  cbn [List.length]. destruct (Z.ltb_spec (- top_n) 0).
  - replace (Z.max (Z.of_nat 1 + - top_n) 0) with 0%Z by lia. reflexivity.
  - replace (Z.min (- top_n) (Z.of_nat 1)) with 0%Z by lia. reflexivity.
Qed.

Lemma top_indices_tie (x : R) : top_indices [x; x] 12 = [1%nat; 0%nat].
Proof. unfold top_indices. rewrite argsort_tie. reflexivity. Qed.

(** ** C4: ties in the selection *)

Lemma weighted_score_same_text (st : Store) (qv : vec) (img : option string) :
  weighted_score st qv (shoe_row_with_image img) = weighted_score st qv shoe_row.
Proof. reflexivity. Qed.


Lemma combined_similarities_store_two :
  combined_similarities store_two "shoes" = Ok [1%R; 1%R].
Proof.
  unfold store_two.
  rewrite combined_similarities_defined by apply same_vocabulary_sizes_shoes.
  cbn [df shoes_store map].
  now rewrite weighted_score_same_text, !weighted_score_shoe_row.
Qed.

Lemma ln_above_one (x : R) : (1 < x)%R -> (0 < ln x)%R.
Proof. intros H. rewrite <- ln_1. apply ln_increasing; lra. Qed.

Lemma l2_normalize_second (z a : R) :
  z = 0%R -> (0 < a)%R -> l2_normalize [z; a] = [0%R; 1%R].
Proof.
  intros -> Ha. unfold l2_normalize, dot. simpl.
  destruct (Req_dec_T (0 * 0 + (a * a + 0)) 0) as [E|_]; [nra|].
  replace (0 * 0 + (a * a + 0))%R with (a * a)%R by ring.
  rewrite sqrt_square by lra. f_equal; [|f_equal]; field; lra.
Qed.

Lemma l2_normalize_first (a z : R) :
  (0 < a)%R -> z = 0%R -> l2_normalize [a; z] = [1%R; 0%R].
Proof.
  intros Ha ->. unfold l2_normalize, dot. simpl.
  destruct (Req_dec_T (a * a + (0 * 0 + 0)) 0) as [E|_]; [nra|].
  replace (a * a + (0 * 0 + 0))%R with (a * a)%R by ring.
  rewrite sqrt_square by lra. f_equal; [|f_equal]; field; lra.
Qed.

Lemma transform_two_term_shoes (idf_boots idf_shoes : R) (doc : string) :
  (0 < idf_shoes)%R ->
  term_count (tokenize (str_lower doc)) "boots" = 0%nat ->
  term_count (tokenize (str_lower doc)) "shoes" = 1%nat ->
  transform (two_term_vectorizer idf_boots idf_shoes) doc = [0%R; 1%R].
Proof.
  intros Hs Hb H1. unfold transform, two_term_vectorizer.
  cbn [features map fst snd]. rewrite Hb, H1. cbn [INR].
  apply l2_normalize_second; lra.
Qed.

Lemma transform_two_term_boots (idf_boots idf_shoes : R) (doc : string) :
  (0 < idf_boots)%R ->
  term_count (tokenize (str_lower doc)) "boots" = 1%nat ->
  term_count (tokenize (str_lower doc)) "shoes" = 0%nat ->
  transform (two_term_vectorizer idf_boots idf_shoes) doc = [1%R; 0%R].
Proof.
  intros Hb H1 Hs. unfold transform, two_term_vectorizer.
  cbn [features map fst snd]. rewrite Hs, H1. cbn [INR].
  apply l2_normalize_first; lra.
Qed.

Lemma same_vocabulary_sizes_two_term (idf_b idf_s : R) (rows : list ProductRow) :
  same_vocabulary_sizes (two_term_store idf_b idf_s rows).
Proof. repeat split. Qed.

Lemma merged_two_term (idf_b idf_s : R) (rows : list ProductRow) :
  (0 < idf_s)%R ->
  merged_query_vector (two_term_store idf_b idf_s rows) "shoes"
  = [(0.4 * 0 + 0.2 * 0 + 0.15 * 0 + 0.15 * 0 + 0.1 * 0)%R;
     (0.4 * 1 + 0.2 * 1 + 0.15 * 1 + 0.15 * 1 + 0.1 * 1)%R].
Proof.
  intros Hs. unfold merged_query_vector, two_term_store.
  cbn [tfidf_name tfidf_category tfidf_brand tfidf_description
       tfidf_specifications].
  rewrite transform_two_term_shoes by (try assumption; vm_compute; reflexivity).
  reflexivity.
Qed.

Lemma row_vector_two_term_shoes (idf_b idf_s : R) (rows : list ProductRow) (f : field)
    (img : option string) :
  (0 < idf_s)%R ->
  row_vector (two_term_store idf_b idf_s rows) f (shoe_row_with_image img)
  = [0%R; 1%R].
Proof.
  intros Hs. destruct f; unfold row_vector, two_term_store;
    cbn [tfidf_name tfidf_category tfidf_brand tfidf_description
         tfidf_specifications];
    apply transform_two_term_shoes; try assumption; vm_compute; reflexivity.
Qed.

Lemma row_vector_two_term_boots (idf_b idf_s : R) (rows : list ProductRow) (f : field)
    (img : option string) :
  (0 < idf_b)%R ->
  row_vector (two_term_store idf_b idf_s rows) f (boots_row img) = [1%R; 0%R].
Proof.
  intros Hb. destruct f; unfold row_vector, two_term_store;
    cbn [tfidf_name tfidf_category tfidf_brand tfidf_description
         tfidf_specifications];
    apply transform_two_term_boots; try assumption; vm_compute; reflexivity.
Qed.

Lemma cosine_second_axis (z a : R) :
  z = 0%R -> (0 < a)%R ->
  cosine [z; a] [0%R; 1%R] = 1%R /\ cosine [z; a] [1%R; 0%R] = 0%R.
Proof.
  intros Hz Ha. unfold cosine.
  rewrite (l2_normalize_second z a Hz Ha).
  rewrite (l2_normalize_second 0 1) by lra.
  rewrite (l2_normalize_first 1 0) by lra.
  unfold dot. simpl. split; ring.
Qed.

Lemma weighted_score_two_term_shoes (idf_b idf_s : R) (rows : list ProductRow)
    (img : option string) :
  (0 < idf_s)%R ->
  weighted_score (two_term_store idf_b idf_s rows)
    (merged_query_vector (two_term_store idf_b idf_s rows) "shoes")
    (shoe_row_with_image img) = 1%R.
Proof.
  intros Hs. unfold weighted_score.
  rewrite merged_two_term, !row_vector_two_term_shoes by assumption.
  destruct (cosine_second_axis
              (0.4 * 0 + 0.2 * 0 + 0.15 * 0 + 0.15 * 0 + 0.1 * 0)
              (0.4 * 1 + 0.2 * 1 + 0.15 * 1 + 0.15 * 1 + 0.1 * 1))
    as [-> _]; [lra | lra |].
  unfold weights. lra.
Qed.

Lemma weighted_score_two_term_boots (idf_b idf_s : R) (rows : list ProductRow)
    (img : option string) :
  (0 < idf_b)%R -> (0 < idf_s)%R ->
  weighted_score (two_term_store idf_b idf_s rows)
    (merged_query_vector (two_term_store idf_b idf_s rows) "shoes")
    (boots_row img) = 0%R.
Proof.
  intros Hb Hs. unfold weighted_score.
  rewrite merged_two_term, !row_vector_two_term_boots by assumption.
  destruct (cosine_second_axis
              (0.4 * 0 + 0.2 * 0 + 0.15 * 0 + 0.15 * 0 + 0.1 * 0)
              (0.4 * 1 + 0.2 * 1 + 0.15 * 1 + 0.15 * 1 + 0.1 * 1))
    as [_ ->]; [lra | lra |].
  unfold weights. lra.
Qed.

Lemma shoe_row_is_shoe_row_with_image :
  shoe_row = shoe_row_with_image (image shoe_row).
Proof. reflexivity. Qed.

Lemma combined_similarities_store_five :
  combined_similarities store_five "shoes" = Ok [1%R; 1%R; 0%R; 0%R; 1%R].
Proof.
  assert (Hb : (0 < ln (6 / 3) + 1)%R)
    by (pose proof (ln_above_one (6 / 3)); lra).
  assert (Hs : (0 < ln (6 / 4) + 1)%R)
    by (pose proof (ln_above_one (6 / 4)); lra).
  unfold store_five.
  rewrite combined_similarities_defined by apply same_vocabulary_sizes_two_term.
  cbn [df two_term_store map]. rewrite shoe_row_is_shoe_row_with_image.
  rewrite !weighted_score_two_term_shoes by assumption.
  rewrite !weighted_score_two_term_boots by assumption.
  reflexivity.
Qed.

Lemma combined_similarities_store_pair :
  combined_similarities store_pair "shoes" = Ok [1%R; 0%R].
Proof.
  assert (Hb : (0 < ln (3 / 2) + 1)%R)
    by (pose proof (ln_above_one (3 / 2)); lra).
  unfold store_pair.
  rewrite combined_similarities_defined by apply same_vocabulary_sizes_two_term.
  cbn [df two_term_store map]. rewrite shoe_row_is_shoe_row_with_image.
  rewrite !weighted_score_two_term_shoes by assumption.
  rewrite !weighted_score_two_term_boots by assumption.
  reflexivity.
Qed.

Ltac sort_step :=
  cbn [List.length seq combine fold_left insert_key snd];
  match goal with
  | |- context [Rlt_dec ?a ?b] => destruct (Rlt_dec a b); try lra
  end.

Lemma top_indices_five :
  top_indices [1%R; 1%R; 0%R; 0%R; 1%R] 12
  = [4%nat; 1%nat; 0%nat; 3%nat; 2%nat].
Proof.
  unfold top_indices, argsort, sort_keys. repeat sort_step. reflexivity.
Qed.

Lemma top_indices_pair : top_indices [1%R; 0%R] 12 = [0%nat; 1%nat].
Proof.
  unfold top_indices, argsort, sort_keys. repeat sort_step. reflexivity.
Qed.

(** C4, the claim as stated, fails: on the catalog of five rows, rows 0, 1
    and 4 have the same texts and the same combined score for the query
    shoes, and the selection begins with row 4, before the tied rows of
    lower index. *)
Lemma tied_rows_not_in_catalog_order :
  str_is_empty (strip "shoes") = false /\
  exists c : R,
    combined_similarities store_five "shoes" = Ok [c; c; 0%R; 0%R; c] /\
    nth_error (top_indices [c; c; 0%R; 0%R; c] 12) 0 = Some 4%nat /\
    ~ ties_in_catalog_order [c; c; 0%R; 0%R; c]
        (top_indices [c; c; 0%R; 0%R; c] 12).
Proof.
  split; [reflexivity|]. exists 1%R.
  split; [apply combined_similarities_store_five|].
  rewrite top_indices_five. split; [reflexivity|].
  intros H. specialize (H 0%nat 1%nat 4%nat 1%nat).
  assert (4 < 1)%nat by (apply H; auto). lia.
Qed.

(** C4, amended. The selection is in descending order of combined score:
    of two selected rows, the one listed first has a score at least as high
    as the other. Between rows with equal scores the code fixes no order by
    catalog index. *)
Theorem selection_in_descending_score_order
    (st : Store) (query : string) (combined : vec) (top_n : Z)
    (i j a b : nat) :
  combined_similarities st query = Ok combined ->
  (i < j)%nat ->
  nth_error (top_indices combined top_n) i = Some a ->
  nth_error (top_indices combined top_n) j = Some b ->
  (nth b combined 0 <= nth a combined 0)%R.
Proof.
  intros _ Hij Ha Hb.
  pose proof (top_indices_in_range combined top_n) as Hr.
  rewrite Forall_forall in Hr.
  pose proof (Hr a (nth_error_In _ _ Ha)) as La.
  pose proof (Hr b (nth_error_In _ _ Hb)) as Lb.
  destruct (nth_error combined a) as [x|] eqn:Ex;
    [|apply nth_error_None in Ex; lia].
  destruct (nth_error combined b) as [y|] eqn:Ey;
    [|apply nth_error_None in Ey; lia].
  rewrite (nth_error_nth _ _ 0%R Ex), (nth_error_nth _ _ 0%R Ey).
  apply (top_indices_order combined top_n i j a b x y Hij Ha Hb Ex Ey).
Qed.

Lemma selection_in_descending_score_order_witness :
  combined_similarities store_pair "shoes" = Ok [1%R; 0%R] /\
  (0 < 1)%nat /\
  nth_error (top_indices [1%R; 0%R] 12) 0 = Some 0%nat /\
  nth_error (top_indices [1%R; 0%R] 12) 1 = Some 1%nat /\
  (nth 1 [1%R; 0%R] 0 <= nth 0 [1%R; 0%R] 0)%R.
Proof.
  assert (H0 : nth_error (top_indices [1%R; 0%R] 12) 0 = Some 0%nat)
    by (rewrite top_indices_pair; reflexivity).
  assert (H1 : nth_error (top_indices [1%R; 0%R] 12) 1 = Some 1%nat)
    by (rewrite top_indices_pair; reflexivity).
  split; [apply combined_similarities_store_pair|].
  split; [lia|]. split; [exact H0|]. split; [exact H1|].
  apply (selection_in_descending_score_order store_pair "shoes" [1%R; 0%R] 12
           0 1 0 1 combined_similarities_store_pair);
    [lia | exact H0 | exact H1].
Defined.

(** ** The pipeline after the blank test *)

Lemma get_relevant_products_run {rt : PyRuntime} (st : Store) (query : string)
    (max_price min_discount min_rating : Q) (top_n : Z) :
  same_vocabulary_sizes st ->
  str_is_empty (strip query) = false ->
  get_relevant_products st query max_price min_discount min_rating top_n
  = (selected <-
       iloc (df st)
         (top_indices
            (map (weighted_score st (merged_query_vector st query)) (df st))
            top_n) ;;
     products_loop
       (filter (filter_mask max_price min_discount min_rating)
          (map derive selected)) []).
Proof.
  intros Hs Hq. unfold get_relevant_products.
  rewrite Hq, combined_similarities_defined by assumption. reflexivity.
Qed.

Lemma get_relevant_products_store_one (query : string) (top_n : Z) :
  str_is_empty (strip query) = false ->
  (0 <= top_n)%Z ->
  get_relevant_products (rt := example_runtime) store_one query 999 0 0 top_n
  = Ok [shoe_summary].
Proof.
  intros Hq Hn. unfold store_one.
  rewrite get_relevant_products_run
    by (try apply same_vocabulary_sizes_shoes; assumption).
  cbn [df shoes_store map].
  rewrite top_indices_singleton by assumption. reflexivity.
Qed.

(** ** C3: blank queries *)

(** C3, the claim as stated, fails: the query made of one exclamation mark
    normalizes to the empty string, and on the one-row catalog the pipeline
    returns that row. *)
Lemma punctuation_query_not_empty_result :
  normalize_text_simple (Some "!"%string) = EmptyString /\
  get_relevant_products (rt := example_runtime) store_one "!" 999 0 0 12
  = Ok [shoe_summary] /\
  get_relevant_products (rt := example_runtime) store_one "!" 999 0 0 12
  <> Ok [].
Proof.
  split; [reflexivity|].
  assert (H : get_relevant_products (rt := example_runtime) store_one "!" 999 0 0 12
              = Ok [shoe_summary])
    by (apply get_relevant_products_store_one; [reflexivity | lia]).
  split; [exact H|]. rewrite H. discriminate.
Qed.

(** C3, amended. For every query whose stripped form is empty, that is
    every query made of whitespace only, the pipeline returns the empty list
    whatever the thresholds and whatever the module state, also a state on
    which computing the similarities would raise. *)
Theorem blank_query_empty_result {rt : PyRuntime} (st : Store) (query : string)
    (max_price min_discount min_rating : Q) (top_n : Z) :
  strip query = EmptyString ->
  all_chars is_space query = true /\
  get_relevant_products st query max_price min_discount min_rating top_n = Ok [].
Proof.
  intros H. split; [now apply strip_blank_iff|].
  unfold get_relevant_products. now rewrite H.
Qed.

Lemma blank_query_empty_result_witness :
  strip "  "%string = EmptyString /\
  get_relevant_products (rt := example_runtime) store_mismatch "  " 0 0 5 12
  = Ok [].
Proof.
  split; [reflexivity|].
  apply (blank_query_empty_result (rt := example_runtime) store_mismatch
           "  " 0 0 5 12).
  reflexivity.
Defined.

(** ** C5: the size of the selection *)

Lemma length_top_indices_positive (combined : vec) (top_n : Z) :
  (0 < top_n)%Z ->
  List.length (top_indices combined top_n)
  = Nat.min (Z.to_nat top_n) (List.length combined).
Proof.
  intros H. rewrite length_top_indices. unfold skipped.
  destruct (Z.ltb_spec (- top_n) 0); lia.
Qed.

Lemma length_top_indices_zero (combined : vec) :
  List.length (top_indices combined 0) = List.length combined.
Proof. rewrite length_top_indices. unfold skipped. simpl. lia. Qed.

Lemma iloc_in_range (d : list ProductRow) (idx : list nat) :
  Forall (fun i => (i < List.length d)%nat) idx ->
  exists rows, iloc d idx = Ok rows /\ List.length rows = List.length idx.
Proof.
  induction 1 as [|i idx Hi _ IH]; simpl.
  - exists []. auto.
  - destruct IH as (rows & -> & Hl).
    destruct (nth_error d i) as [r|] eqn:E;
      [|apply nth_error_None in E; lia].
    exists (r :: rows). simpl. auto.
Qed.

Lemma products_loop_length {rt : PyRuntime} (rows : list ResultRow)
    (products out : list ProductSummary) :
  products_loop rows products = Ok out ->
  (List.length out <= List.length products + List.length rows)%nat.
Proof.
  revert products. induction rows as [|r rows IH]; intros products; simpl.
  - intros E. injection E as <-. lia.
  - destruct (truthy (try_eval_image (image (row r)))).
    + destruct (getitem0 (try_eval_image (image (row r)))) as [first|e];
        simpl; [|discriminate].
      intros E. apply IH in E. rewrite length_app in E. simpl in E. lia.
    + intros E. apply IH in E. lia.
Qed.

(** For a positive [top_n] the selection has [min top_n (catalog size)]
    rows, and a result, when there is one, has no more. *)
Lemma result_size_positive_top_n {rt : PyRuntime} (st : Store) (query : string)
    (max_price min_discount min_rating : Q) (top_n : Z)
    (out : list ProductSummary) :
  (0 < top_n)%Z ->
  (forall combined,
     combined_similarities st query = Ok combined ->
     List.length (top_indices combined top_n)
     = Nat.min (Z.to_nat top_n) (List.length (df st))) /\
  (get_relevant_products st query max_price min_discount min_rating top_n = Ok out ->
   (List.length out <= Nat.min (Z.to_nat top_n) (List.length (df st)))%nat).
Proof.
  intros Hn. split.
  - intros combined Hc. rewrite length_top_indices_positive by assumption.
    destruct (same_vocabulary_sizes_dec st) as [Hs|Hs].
    + rewrite combined_similarities_defined in Hc by assumption.
      injection Hc as <-. now rewrite length_map.
    + rewrite combined_similarities_undefined in Hc by assumption.
      discriminate.
  - unfold get_relevant_products.
    destruct (str_is_empty (strip query)).
    { intros E. injection E as <-. simpl. lia. }
    destruct (same_vocabulary_sizes_dec st) as [Hs|Hs];
      [|rewrite combined_similarities_undefined by assumption; discriminate].
    rewrite combined_similarities_defined by assumption. cbn [bind].
    set (scores := map _ (df st)).
    destruct (iloc_in_range (df st) (top_indices scores top_n)) as (rows & E & Hl).
    { pose proof (top_indices_in_range scores top_n) as H.
      unfold scores in H at 1. now rewrite length_map in H. }
    rewrite E. cbn [bind]. intros Ho. apply products_loop_length in Ho.
    pose proof (filter_length_le (filter_mask max_price min_discount min_rating)
                  (map derive rows)) as Hf.
    rewrite length_map in Hf. simpl in Ho.
    rewrite length_top_indices_positive in Hl by assumption.
    unfold scores in Hl. rewrite length_map in Hl. lia.
Qed.

(** C5. With [top_n = 0] the slice [[-top_n:]] is the whole array: the
    selection holds every catalog row, and on the one-row catalog the
    result has one record although [min top_n (catalog size)] is zero. *)
Theorem top_n_zero_selects_every_row :
  (forall combined : vec,
     List.length (top_indices combined 0) = List.length combined) /\
  top_indices [1%R] 0 = [0%nat] /\
  get_relevant_products (rt := example_runtime) store_one "shoes" 999 0 0 0
  = Ok [shoe_summary] /\
  ~ (List.length [shoe_summary] <= Nat.min (Z.to_nat 0) (List.length (df store_one)))%nat.
Proof.
  split; [apply length_top_indices_zero|].
  split; [apply top_indices_singleton; lia|].
  split; [apply get_relevant_products_store_one; [reflexivity | lia]|].
  simpl. lia.
Qed.

(** ** C8 and C2: discount and filters *)

Lemma Qgt_bool_iff (x y : Q) : Qgt_bool x y = true <-> (y < x)%Q.
Proof.
  unfold Qgt_bool. rewrite negb_true_iff, <- not_true_iff_false, Qle_bool_iff.
  split; [apply Qnot_le_lt | apply Qlt_not_le].
Qed.

(** C8. The discount percentage is [100 * (1 - discounted / retail)] when
    the retail price is positive (absent when the discounted price is), and
    absent when the retail price is zero, negative or missing. *)
Theorem calculate_discount_percentage_spec (r : ProductRow) :
  (forall rp dp,
     retail_price r = Some rp -> (0 < rp)%Q -> discounted_price r = Some dp ->
     calculate_discount_percentage r = Some (100 * (1 - dp / rp))%Q) /\
  (forall rp,
     retail_price r = Some rp -> (0 < rp)%Q -> discounted_price r = None ->
     calculate_discount_percentage r = None) /\
  (forall rp,
     retail_price r = Some rp -> ~ (0 < rp)%Q ->
     calculate_discount_percentage r = None) /\
  (retail_price r = None -> calculate_discount_percentage r = None).
Proof.
  unfold calculate_discount_percentage. repeat split.
  - intros rp dp -> Hp ->. apply Qgt_bool_iff in Hp. now rewrite Hp.
  - intros rp -> Hp ->. apply Qgt_bool_iff in Hp. now rewrite Hp.
  - intros rp -> Hp. destruct (Qgt_bool rp 0) eqn:E; [|reflexivity].
    apply Qgt_bool_iff in E. contradiction.
  - intros ->. reflexivity.
Qed.

Lemma calculate_discount_percentage_spec_witness :
  retail_price shoe_row = Some 100%Q /\ (0 < 100)%Q /\
  discounted_price shoe_row = Some 80%Q /\
  calculate_discount_percentage shoe_row = Some (100 * (1 - 80 / 100))%Q.
Proof.
  split; [reflexivity|]. split; [reflexivity|]. split; [reflexivity|].
  apply (calculate_discount_percentage_spec shoe_row); reflexivity.
Defined.

Lemma upper_filter_iff (x : option Q) (bound : Q) :
  Qle_bool (fillna (bound + 1)%Q x) bound || isna x = true <-> passes_max x bound.
Proof.
  unfold passes_max. destruct x as [v|]; simpl.
  - rewrite orb_false_r, Qle_bool_iff. split.
    + intros H. right. exists v. auto.
    + intros [H|(w & E & H)]; [discriminate|]. now injection E as ->.
  - rewrite orb_true_r. split; auto.
Qed.

Lemma lower_filter_iff (x : option Q) (bound : Q) :
  Qle_bool bound (fillna (-1)%Q x) || isna x = true <-> passes_min x bound.
Proof.
  unfold passes_min. destruct x as [v|]; simpl.
  - rewrite orb_false_r, Qle_bool_iff. split.
    + intros H. right. exists v. auto.
    + intros [H|(w & E & H)]; [discriminate|]. now injection E as ->.
  - rewrite orb_true_r. split; auto.
Qed.

Lemma filter_mask_iff (max_price min_discount min_rating : Q) (r : ResultRow) :
  filter_mask max_price min_discount min_rating r = true <->
  passes_max (discounted_price (row r)) max_price /\
  passes_min (discount_percentage r) min_discount /\
  passes_min (rating_numeric r) min_rating.
Proof.
  unfold filter_mask.
  rewrite !andb_true_iff, upper_filter_iff, !lower_filter_iff. tauto.
Qed.

(** C2. A row of the selection is kept by the filter exactly when each of
    the three filters passes, a filter passing on a value that satisfies the
    threshold or is absent; a row whose retail price is zero has no discount
    percentage and passes the discount filter for every [min_discount]. *)
Theorem filter_keeps_iff_all_pass {rt : PyRuntime}
    (max_price min_discount min_rating : Q) :
  (forall (results : list ResultRow) (r : ResultRow),
     In r (filter (filter_mask max_price min_discount min_rating) results) <->
     In r results /\
     passes_max (discounted_price (row r)) max_price /\
     passes_min (discount_percentage r) min_discount /\
     passes_min (rating_numeric r) min_rating) /\
  (forall (p : ProductRow) (rp : Q),
     retail_price p = Some rp -> (rp == 0)%Q ->
     discount_percentage (derive p) = None /\
     passes_min (discount_percentage (derive p)) min_discount /\
     (filter_mask max_price min_discount min_rating (derive p) = true <->
      passes_max (discounted_price p) max_price /\
      passes_min (rating_numeric (derive p)) min_rating)).
Proof.
  split.
  - intros results r. rewrite filter_In, filter_mask_iff. tauto.
  - intros p rp Hr H0.
    assert (E : discount_percentage (derive p) = None).
    { simpl. unfold calculate_discount_percentage. rewrite Hr.
      destruct (Qgt_bool rp 0) eqn:G; [|reflexivity].
      apply Qgt_bool_iff in G. rewrite H0 in G.
      now apply Qlt_irrefl in G. }
    split; [exact E|]. split; [left; exact E|].
    rewrite filter_mask_iff, E. simpl. unfold passes_min at 1. tauto.
Qed.

Lemma filter_keeps_iff_all_pass_witness :
  retail_price free_row = Some 0%Q /\ (0 == 0)%Q /\
  discount_percentage (derive (rt := example_runtime) free_row) = None /\
  passes_min (discount_percentage (derive (rt := example_runtime) free_row)) 90.
Proof.
  split; [reflexivity|]. split; [reflexivity|].
  destruct (filter_keeps_iff_all_pass (rt := example_runtime) 999 90 0)
    as [_ H].
  destruct (H free_row 0%Q eq_refl (Qeq_refl 0)) as (H1 & H2 & _).
  split; assumption.
Defined.

(** ** C6: the image field *)

Lemma products_loop_emitted {rt : PyRuntime} (rows : list ResultRow)
    (products : list ProductSummary) :
  Forall (fun r => exists l, try_eval_image (image (row r)) = PyList l) rows ->
  products_loop rows products = Ok (products ++ flat_map emitted rows).
Proof.
  intros H. revert products.
  induction H as [|r rows [l Hl] _ IH]; intros products; simpl.
  - now rewrite app_nil_r.
  - unfold emitted at 1. rewrite Hl. destruct l as [|first l]; simpl.
    + apply IH.
    + rewrite IH, <- app_assoc. reflexivity.
Qed.

(** A value that is true and cannot be indexed, such as the integer that
    the text 5 evaluates to, raises [TypeError] at [image_urls[0]], which
    is outside the [try]. *)
Lemma products_loop_not_subscriptable {rt : PyRuntime} (r : ResultRow)
    (rest : list ResultRow) (products : list ProductSummary) (z : Z) :
  try_eval_image (image (row r)) = PyInt z -> z <> 0%Z ->
  products_loop (r :: rest) products = Raise TypeError.
Proof.
  intros H Hz. simpl. rewrite H. simpl.
  apply Z.eqb_neq in Hz. now rewrite Hz.
Qed.

(** What the handler recovers. An image field whose evaluation raises, or
    that is missing, counts as the empty list and raises nothing; a row whose list is empty adds
    nothing to the output; a row whose list has a first element adds one
    record made of that element and of the row's name, discounted price and
    URL; over rows whose image fields evaluate to lists or fail to evaluate
    the loop returns those records in order. *)
Theorem malformed_image_recovered {rt : PyRuntime} :
  (forall s, py_eval s = None -> try_eval_image (Some s) = PyList []) /\
  try_eval_image None = PyList [] /\
  (forall r rest products,
     try_eval_image (image (row r)) = PyList [] ->
     products_loop (r :: rest) products = products_loop rest products) /\
  (forall r rest products first others,
     try_eval_image (image (row r)) = PyList (first :: others) ->
     products_loop (r :: rest) products
     = products_loop rest
         (products ++ [ {| summary_image := first;
                           summary_name := product_name (row r);
                           summary_price := discounted_price (row r);
                           summary_url := product_url (row r) |} ])) /\
  (forall rows,
     Forall (fun r => exists l, try_eval_image (image (row r)) = PyList l) rows ->
     products_loop rows [] = Ok (flat_map emitted rows)).
Proof.
  split; [intros s H; simpl; now rewrite H|].
  split; [reflexivity|].
  split; [intros r rest products H; simpl; now rewrite H|].
  split; [intros r rest products first others H; simpl; now rewrite H|].
  intros rows H. now rewrite products_loop_emitted.
Qed.

Lemma malformed_image_recovered_witness :
  let rows :=
    map (derive (rt := example_runtime))
      [shoe_row_with_image (Some "no image"%string);
       shoe_row;
       shoe_row_with_image None;
       shoe_row_with_image (Some "[]"%string)] in
  Forall (fun r => exists l,
            try_eval_image (rt := example_runtime) (image (row r)) = PyList l)
    rows /\
  products_loop (rt := example_runtime) rows [] = Ok [shoe_summary].
Proof.
  assert (H : Forall (fun r => exists l,
                       try_eval_image (rt := example_runtime) (image (row r))
                       = PyList l)
                (map (derive (rt := example_runtime))
                   [shoe_row_with_image (Some "no image"%string);
                    shoe_row;
                    shoe_row_with_image None;
                    shoe_row_with_image (Some "[]"%string)])).
  { repeat constructor; eexists; vm_compute; reflexivity. }
  split; [exact H|].
  destruct (malformed_image_recovered (rt := example_runtime))
    as (_ & _ & _ & _ & Hall).
  rewrite (Hall _ H). reflexivity.
Defined.

(** End to end: of two rows that match equally, the one whose image field
    is no expression is left out and the request still returns. *)
Lemma malformed_image_row_dropped :
  get_relevant_products (rt := example_runtime)
    (shoes_store [shoe_row_with_image (Some "no image"%string); shoe_row])
    "shoes" 999 0 0 12
  = Ok [shoe_summary].
Proof.
  rewrite get_relevant_products_run
    by (try apply same_vocabulary_sizes_shoes; reflexivity).
  cbn [df shoes_store map].
  rewrite weighted_score_same_text, !weighted_score_shoe_row.
  rewrite top_indices_tie. reflexivity.
Qed.

(** C6. A text that evaluates to a value that is no list is not recovered:
    when the value is true and cannot be indexed, [image_urls[0]] raises
    [TypeError] outside the [try] and the request fails, as for the row
    whose image text is 5. *)
Theorem non_list_image_raises :
  (forall (rt : PyRuntime) (r : ResultRow) (rest : list ResultRow)
          (products : list ProductSummary) (z : Z),
     try_eval_image (image (row r)) = PyInt z -> z <> 0%Z ->
     products_loop (r :: rest) products = Raise TypeError) /\
  py_eval (PyRuntime := literal_runtime) "5" = Some (PyInt 5) /\
  get_relevant_products (rt := literal_runtime)
    (shoes_store [shoe_row_with_image (Some "5"%string)])
    "shoes" 999 0 0 12
  = Raise TypeError.
Proof.
  split; [intros rt; apply products_loop_not_subscriptable|].
  split; [reflexivity|].
  rewrite get_relevant_products_run
    by (try apply same_vocabulary_sizes_shoes; reflexivity).
  cbn [df shoes_store map].
  rewrite top_indices_singleton by lia. reflexivity.
Qed.


(** ** C10: the shapes the vectorization needs *)

Lemma same_vocabulary_sizes_at_cap (st : Store) :
  vocabulary_size (tfidf_name st) = max_features ->
  vocabulary_size (tfidf_category st) = max_features ->
  vocabulary_size (tfidf_brand st) = max_features ->
  vocabulary_size (tfidf_description st) = max_features ->
  vocabulary_size (tfidf_specifications st) = max_features ->
  same_vocabulary_sizes st.
Proof. unfold same_vocabulary_sizes. intros -> -> -> -> ->. auto. Qed.

(** C10. The query vector is defined exactly when the five vocabularies
    have one size, as they have when each reaches the cap; when two of them
    differ the addition raises [ValueError], and so does the pipeline for
    every query that is not blank. *)
Theorem vectorization_needs_equal_sizes {rt : PyRuntime} (st : Store)
    (query : string) :
  ((exists v, get_weighted_tfidf_vector st query = Ok v)
   <-> same_vocabulary_sizes st) /\
  (vocabulary_size (tfidf_name st) = max_features ->
   vocabulary_size (tfidf_category st) = max_features ->
   vocabulary_size (tfidf_brand st) = max_features ->
   vocabulary_size (tfidf_description st) = max_features ->
   vocabulary_size (tfidf_specifications st) = max_features ->
   exists v, get_weighted_tfidf_vector st query = Ok v) /\
  (~ same_vocabulary_sizes st ->
   get_weighted_tfidf_vector st query = Raise ValueError /\
   (str_is_empty (strip query) = false ->
    forall max_price min_discount min_rating top_n,
      get_relevant_products st query max_price min_discount min_rating top_n
      = Raise ValueError)).
Proof.
  split; [|split].
  - split.
    + intros [v Hv]. destruct (same_vocabulary_sizes_dec st) as [Hs|Hs];
        [exact Hs|].
      rewrite weighted_vector_undefined in Hv by assumption. discriminate.
    + intros Hs. eexists. now apply weighted_vector_defined.
  - intros H1 H2 H3 H4 H5. eexists. apply weighted_vector_defined.
    now apply same_vocabulary_sizes_at_cap.
  - intros Hn. split; [now apply weighted_vector_undefined|].
    intros Hq max_price min_discount min_rating top_n.
    unfold get_relevant_products.
    rewrite Hq, combined_similarities_undefined by assumption. reflexivity.
Qed.

Lemma vectorization_needs_equal_sizes_witness :
  ~ same_vocabulary_sizes store_mismatch /\
  str_is_empty (strip "shoes") = false /\
  get_weighted_tfidf_vector store_mismatch "shoes" = Raise ValueError /\
  get_relevant_products (rt := example_runtime) store_mismatch "shoes" 999 0 0 12
  = Raise ValueError.
Proof.
  assert (Hn : ~ same_vocabulary_sizes store_mismatch).
  { intros (H & _). vm_compute in H. discriminate. }
  split; [exact Hn|]. split; [reflexivity|].
  destruct (vectorization_needs_equal_sizes (rt := example_runtime)
              store_mismatch "shoes") as (_ & _ & H).
  destruct (H Hn) as [Hv Hp]. split; [exact Hv|].
  apply Hp. reflexivity.
Defined.

(** * Further properties of the pipeline *)

(** ** The selection is a set of distinct catalog positions *)

Lemma insert_key_perm (p : nat * R) (l : list (nat * R)) :
  Permutation (insert_key p l) (p :: l).
Proof.
  induction l as [|q l IH]; simpl; [reflexivity|].
  destruct (Rlt_dec (snd p) (snd q)); [reflexivity|].
  rewrite IH. apply perm_swap.
Qed.

Lemma sort_from_perm (l acc : list (nat * R)) :
  Permutation (fold_left (fun a p => insert_key p a) l acc) (l ++ acc).
Proof.
  revert acc. induction l as [|p l IH]; intros acc; simpl; [reflexivity|].
  rewrite IH, insert_key_perm. symmetry. apply Permutation_middle.
Qed.

Lemma map_fst_combine_seq (a : vec) (s : nat) :
  map fst (combine (seq s (List.length a)) a) = seq s (List.length a).
Proof.
  revert s. induction a as [|x a IH]; intros s; simpl; [reflexivity|].
  now rewrite IH.
Qed.

Lemma argsort_perm (a : vec) : Permutation (argsort a) (seq 0 (List.length a)).
Proof.
  unfold argsort, sort_keys.
  rewrite <- (map_fst_combine_seq a 0) at 2.
  apply Permutation_map. rewrite sort_from_perm. now rewrite app_nil_r.
Qed.

Lemma NoDup_skipn {A : Type} (k : nat) (l : list A) : NoDup l -> NoDup (skipn k l).
Proof.
  intros H. rewrite <- (firstn_skipn k l) in H.
  now apply NoDup_app_remove_l in H.
Qed.

(** X1. The selection never lists a catalog row twice, and every position
    it lists is a position of the catalog. *)
Theorem top_indices_distinct (combined : vec) (top_n : Z) :
  NoDup (top_indices combined top_n) /\
  Forall (fun i => (i < List.length combined)%nat) (top_indices combined top_n).
Proof.
  split; [|apply top_indices_in_range].
  unfold top_indices, slice_from. apply NoDup_rev, NoDup_skipn.
  apply (Permutation_NoDup (Permutation_sym (argsort_perm combined))).
  apply seq_NoDup.
Qed.

(** X2. When [top_n] is at least the number of catalog rows, the selection
    holds every catalog position exactly once. *)
Theorem top_indices_whole_catalog (combined : vec) (top_n : Z) :
  (Z.of_nat (List.length combined) <= top_n)%Z ->
  Permutation (top_indices combined top_n) (seq 0 (List.length combined)).
Proof.
  intros H. unfold top_indices, slice_from. rewrite length_argsort.
  assert (E : Z.to_nat (if (- top_n <? 0)%Z
                        then Z.max (Z.of_nat (List.length combined) + - top_n) 0
                        else Z.min (- top_n) (Z.of_nat (List.length combined)))
              = 0%nat) by (destruct (Z.ltb_spec (- top_n) 0); lia).
  rewrite E. simpl. rewrite <- Permutation_rev. apply argsort_perm.
Qed.

Lemma top_indices_whole_catalog_witness :
  (Z.of_nat (List.length [1%R; 1%R]) <= 12)%Z /\
  Permutation (top_indices [1%R; 1%R] 12) (seq 0 (List.length [1%R; 1%R])).
Proof.
  split; [simpl; lia|].
  apply (top_indices_whole_catalog [1%R; 1%R] 12). simpl. lia.
Defined.

(** X3. A shorter selection is the beginning of a longer one: for
    [0 < k <= m], the selection for [k] is the first [k] entries of the
    selection for [m]. *)
Theorem top_indices_prefix (combined : vec) (k m : Z) :
  (0 < k)%Z -> (k <= m)%Z ->
  top_indices combined k = firstn (Z.to_nat k) (top_indices combined m).
Proof.
  intros Hk Hm. unfold top_indices, slice_from.
  rewrite firstn_rev, skipn_skipn, length_skipn, length_argsort.
  f_equal. f_equal.
  destruct (Z.ltb_spec (- k) 0); destruct (Z.ltb_spec (- m) 0); lia.
Qed.

Lemma top_indices_prefix_witness :
  (0 < 1)%Z /\ (1 <= 12)%Z /\
  top_indices [1%R; 1%R] 1 = firstn (Z.to_nat 1) (top_indices [1%R; 1%R] 12).
Proof.
  split; [lia|]. split; [lia|].
  apply (top_indices_prefix [1%R; 1%R] 1 12); lia.
Defined.

(** ** One score for each row *)

Lemma dot_cons (a b : R) (u v : vec) :
  dot (a :: u) (b :: v) = (a * b + dot u v)%R.
Proof. reflexivity. Qed.

(** X5. The code has one combined score for each catalog row. *)
Theorem combined_similarities_length (st : Store) (query : string) (combined : vec) :
  combined_similarities st query = Ok combined ->
  List.length combined = List.length (df st) /\ same_vocabulary_sizes st.
Proof.
  intros Hc.
  destruct (same_vocabulary_sizes_dec st) as [Hs|Hs];
    [|rewrite combined_similarities_undefined in Hc by assumption;
      discriminate].
  rewrite combined_similarities_defined in Hc by assumption.
  injection Hc as <-. split; [apply length_map | exact Hs].
Qed.

Lemma combined_similarities_length_witness :
  combined_similarities store_two "shoes" = Ok [1%R; 1%R] /\
  List.length [1%R; 1%R] = List.length (df store_two).
Proof.
  split; [apply combined_similarities_store_two|].
  apply (combined_similarities_length store_two "shoes" [1%R; 1%R]
           combined_similarities_store_two).
Defined.

(** ** A query without a known term *)

Lemma all_zero_vscale (a : R) (v : vec) : all_zero v -> all_zero (vscale a v).
Proof.
  intros H. apply Forall_map. eapply Forall_impl; [|exact H].
  intros x ->. simpl. ring.
Qed.

Lemma all_zero_zip_add (u v : vec) :
  all_zero u -> all_zero v -> all_zero (zip_add u v).
Proof.
  intros Hu. revert v. induction Hu as [|a u Ha _ IH]; intros v Hv.
  - constructor.
  - destruct Hv as [|b v Hb Hv]; [constructor|].
    unfold zip_add. simpl. constructor; [simpl; lra|]. now apply IH.
Qed.

Lemma dot_all_zero (u v : vec) : all_zero u -> dot u v = 0%R.
Proof.
  intros Hu. revert v. induction Hu as [|a u Ha _ IH]; intros v.
  - reflexivity.
  - destruct v as [|b v]; [reflexivity|].
    rewrite dot_cons, IH, Ha. ring.
Qed.

Lemma cosine_all_zero (x y : vec) : all_zero x -> cosine x y = 0%R.
Proof.
  intros H. unfold cosine, l2_normalize at 1.
  destruct (Req_dec_T (dot x x) 0) as [_|E].
  - now apply dot_all_zero.
  - elim E. now apply dot_all_zero.
Qed.

Lemma transform_unknown (v : TfidfVectorizer) (query : string) :
  no_known_term v query ->
  all_zero (transform v (normalize_text_simple (Some query))).
Proof.
  intros H. unfold transform.
  set (toks := tokenize _) in *.
  assert (Hz : all_zero
                 (map (fun ti : string * R =>
                         (INR (term_count toks (fst ti)) * snd ti)%R)
                    (features v))).
  { apply Forall_map. eapply Forall_impl; [|exact H].
    intros ti Hti. simpl. fold toks in Hti. rewrite Hti. simpl. ring. }
  unfold l2_normalize. rewrite (dot_all_zero _ _ Hz).
  destruct (Req_dec_T 0 0) as [_|E]; [exact Hz | now elim E].
Qed.

Lemma merged_query_vector_unknown (st : Store) (query : string) :
  unknown_query st query -> all_zero (merged_query_vector st query).
Proof.
  intros (H1 & H2 & H3 & H4 & H5). unfold merged_query_vector.
  repeat apply all_zero_zip_add; apply all_zero_vscale;
    now apply transform_unknown.
Qed.

(** X6. A query none of whose tokens is in any vocabulary gives every row
    the score 0, and the selection still has [min top_n n] distinct rows of
    the [n] of the catalog: such a query is answered with rows that do not
    match it, not with an empty list. *)
Theorem unknown_query_still_selects (st : Store) (query : string) (top_n : Z) :
  same_vocabulary_sizes st -> unknown_query st query -> (0 < top_n)%Z ->
  combined_similarities st query = Ok (map (fun _ => 0%R) (df st)) /\
  List.length (top_indices (map (fun _ => 0%R) (df st)) top_n)
  = Nat.min (Z.to_nat top_n) (List.length (df st)) /\
  NoDup (top_indices (map (fun _ => 0%R) (df st)) top_n).
Proof.
  intros Hs Hu Hn. split; [|split].
  - rewrite combined_similarities_defined by assumption. f_equal.
    apply map_ext. intros r. unfold weighted_score.
    rewrite !cosine_all_zero by now apply merged_query_vector_unknown.
    ring.
  - rewrite length_top_indices_positive by assumption. now rewrite length_map.
  - unfold top_indices, slice_from. apply NoDup_rev, NoDup_skipn.
    apply (Permutation_NoDup (Permutation_sym (argsort_perm _))).
    apply seq_NoDup.
Qed.

Lemma unknown_query_still_selects_witness :
  same_vocabulary_sizes store_two /\ unknown_query store_two "boots!" /\
  (0 < 1)%Z /\
  combined_similarities store_two "boots!" = Ok [0%R; 0%R] /\
  List.length (top_indices [0%R; 0%R] 1) = 1%nat.
Proof.
  assert (Hs : same_vocabulary_sizes store_two)
    by apply same_vocabulary_sizes_shoes.
  assert (Hu : unknown_query store_two "boots!").
  { repeat split; repeat constructor. }
  split; [exact Hs|]. split; [exact Hu|]. split; [lia|].
  destruct (unknown_query_still_selects store_two "boots!" 1 Hs Hu)
    as (Hc & Hl & _); [lia|].
  split; [exact Hc | exact Hl].
Defined.

(** ** What the pipeline returns *)

Lemma iloc_lookup (d : list ProductRow) (idx : list nat) (rows : list ProductRow) :
  iloc d idx = Ok rows ->
  Forall2 (fun i r => nth_error d i = Some r) idx rows.
Proof.
  revert rows. induction idx as [|i idx IH]; intros rows; simpl.
  - intros E. injection E as <-. constructor.
  - destruct (nth_error d i) as [r|] eqn:Er; [|discriminate].
    destruct (iloc d idx) as [rs|e]; simpl; [|discriminate].
    intros E. injection E as <-. constructor; [exact Er | now apply IH].
Qed.

Lemma Forall2_lookup_In (d : list ProductRow) (idx : list nat)
    (rows : list ProductRow) :
  Forall2 (fun i r => nth_error d i = Some r) idx rows ->
  Forall (fun r => In r d) rows.
Proof.
  induction 1 as [|i r idx rows Hr _ IH]; constructor; [|exact IH].
  eapply nth_error_In. exact Hr.
Qed.

Lemma products_loop_sound {rt : PyRuntime} (rows : list ResultRow)
    (products out : list ProductSummary) :
  products_loop rows products = Ok out ->
  exists added,
    out = products ++ added /\
    Forall (fun s => exists r first,
              In r rows /\
              getitem0 (try_eval_image (image (row r))) = Ok first /\
              s = summary_of_row first r) added.
Proof.
  revert products. induction rows as [|r rows IH]; intros products; simpl.
  - intros E. injection E as <-. exists []. now rewrite app_nil_r.
  - destruct (truthy (try_eval_image (image (row r)))).
    + destruct (getitem0 (try_eval_image (image (row r)))) as [first|e] eqn:Eg;
        simpl; [|discriminate].
      intros E. apply IH in E. destruct E as (added & -> & Ha).
      exists (summary_of_row first r :: added). split.
      * now rewrite <- app_assoc.
      * constructor.
        -- exists r, first. auto.
        -- eapply Forall_impl; [|exact Ha].
           intros s (r' & f' & Hin & Hg & Hs). exists r', f'. auto.
    + intros E. apply IH in E. destruct E as (added & -> & Ha).
      exists added. split; [reflexivity|].
      eapply Forall_impl; [|exact Ha].
      intros s (r' & f' & Hin & Hg & Hs). exists r', f'. auto.
Qed.

(** X7. Every record the pipeline returns is made from a catalog row that
    passes the three filters, with that row's name, discounted price and
    URL and the first item of its evaluated image field; in particular no
    returned price exceeds [max_price]. *)
Theorem returned_products_pass_filters {rt : PyRuntime} (st : Store)
    (query : string) (max_price min_discount min_rating : Q) (top_n : Z)
    (out : list ProductSummary) :
  get_relevant_products st query max_price min_discount min_rating top_n = Ok out ->
  Forall
    (fun s =>
       (exists r first,
          In r (df st) /\
          getitem0 (try_eval_image (image r)) = Ok first /\
          s = {| summary_image := first;
                 summary_name := product_name r;
                 summary_price := discounted_price r;
                 summary_url := product_url r |} /\
          passes_max (discounted_price r) max_price /\
          passes_min (calculate_discount_percentage r) min_discount /\
          passes_min (to_numeric (product_rating r)) min_rating) /\
       (forall p, summary_price s = Some p -> (p <= max_price)%Q))
    out.
Proof.
  unfold get_relevant_products.
  destruct (str_is_empty (strip query)); [intros E; injection E as <-; constructor|].
  destruct (combined_similarities st query) as [combined|e]; simpl;
    [|discriminate].
  destruct (iloc (df st) (top_indices combined top_n)) as [selected|e] eqn:Ei;
    simpl; [|discriminate].
  intros Ho. apply products_loop_sound in Ho.
  destruct Ho as (added & -> & Ha). simpl.
  pose proof (Forall2_lookup_In _ _ _ (iloc_lookup _ _ _ Ei)) as Hin.
  rewrite Forall_forall in Hin.
  eapply Forall_impl; [|exact Ha].
  intros s (r & first & Hr & Hg & ->).
  apply filter_In in Hr. destruct Hr as [Hr Hm].
  apply in_map_iff in Hr. destruct Hr as (r0 & <- & Hr0).
  apply filter_mask_iff in Hm. simpl in Hm. destruct Hm as (Hp & Hd & Hrt).
  split.
  - exists r0, first. repeat split; auto.
  - simpl. intros p Ep. destruct Hp as [Hp|(v & Hv & Hle)]; congruence.
Qed.

Lemma returned_products_pass_filters_witness :
  get_relevant_products (rt := example_runtime) store_one "shoes" 999 0 0 12
  = Ok [shoe_summary] /\
  (forall p, summary_price shoe_summary = Some p -> (p <= 999)%Q).
Proof.
  assert (H : get_relevant_products (rt := example_runtime) store_one "shoes"
                999 0 0 12 = Ok [shoe_summary])
    by (apply get_relevant_products_store_one; [reflexivity | lia]).
  split; [exact H|].
  pose proof (returned_products_pass_filters (rt := example_runtime)
                store_one "shoes" 999 0 0 12 [shoe_summary] H) as F.
  inversion F as [|s l [_ Hs] _]; subst. exact Hs.
Defined.

(** X8. When the five vocabularies have one size and every image field of
    the catalog evaluates to a list or fails to evaluate, the pipeline
    raises nothing: for a query that is not blank it returns, in the order
    of the selection, one record for each selected row that passes the
    filters and has a non-empty image list. *)
Theorem get_relevant_products_returns {rt : PyRuntime} (st : Store)
    (query : string) (max_price min_discount min_rating : Q) (top_n : Z) :
  same_vocabulary_sizes st ->
  Forall image_list_or_failure (df st) ->
  str_is_empty (strip query) = false ->
  exists combined selected,
    combined_similarities st query = Ok combined /\
    Forall2 (fun i r => nth_error (df st) i = Some r)
      (top_indices combined top_n) selected /\
    get_relevant_products st query max_price min_discount min_rating top_n
    = Ok (flat_map emitted
            (filter (filter_mask max_price min_discount min_rating)
               (map derive selected))).
Proof.
  intros Hs Hi Hq.
  set (combined := map (weighted_score st (merged_query_vector st query)) (df st)).
  destruct (iloc_in_range (df st) (top_indices combined top_n))
    as (selected & Ei & _).
  { pose proof (top_indices_in_range combined top_n) as H.
    unfold combined in H at 1. now rewrite length_map in H. }
  exists combined, selected.
  split; [now apply combined_similarities_defined|].
  pose proof (iloc_lookup _ _ _ Ei) as Hl. split; [exact Hl|].
  rewrite get_relevant_products_run by assumption. fold combined.
  rewrite Ei. cbn [bind]. rewrite products_loop_emitted; [reflexivity|].
  apply Forall_forall. intros r Hr.
  apply filter_In in Hr. destruct Hr as [Hr _].
  apply in_map_iff in Hr. destruct Hr as (r0 & <- & Hr0). simpl.
  pose proof (Forall2_lookup_In _ _ _ Hl) as Hin.
  rewrite Forall_forall in Hin, Hi. apply Hi, Hin, Hr0.
Qed.

Lemma get_relevant_products_returns_witness :
  same_vocabulary_sizes store_two /\
  Forall (image_list_or_failure (rt := example_runtime)) (df store_two) /\
  str_is_empty (strip "shoes") = false /\
  exists combined selected,
    combined_similarities store_two "shoes" = Ok combined /\
    Forall2 (fun i r => nth_error (df store_two) i = Some r)
      (top_indices combined 12) selected /\
    get_relevant_products (rt := example_runtime) store_two "shoes" 999 0 0 12
    = Ok (flat_map (emitted (rt := example_runtime))
            (filter (filter_mask 999 0 0)
               (map (derive (rt := example_runtime)) selected))).
Proof.
  assert (Hs : same_vocabulary_sizes store_two)
    by apply same_vocabulary_sizes_shoes.
  assert (Hi : Forall (image_list_or_failure (rt := example_runtime))
                 (df store_two)).
  { repeat constructor; eexists; vm_compute; reflexivity. }
  split; [exact Hs|]. split; [exact Hi|]. split; [reflexivity|].
  apply (get_relevant_products_returns (rt := example_runtime) store_two
           "shoes" 999 0 0 12 Hs Hi).
  reflexivity.
Defined.

(** ** Filters and discounts *)

(** X9. Loosening the thresholds never removes a row: a row kept under
    [max_price], [min_discount], [min_rating] is kept under any higher
    [max_price] and lower [min_discount] and [min_rating]. *)
Theorem filter_loosening (max_price min_discount min_rating
                          max_price' min_discount' min_rating' : Q)
    (results : list ResultRow) :
  (max_price <= max_price')%Q ->
  (min_discount' <= min_discount)%Q ->
  (min_rating' <= min_rating)%Q ->
  incl (filter (filter_mask max_price min_discount min_rating) results)
       (filter (filter_mask max_price' min_discount' min_rating') results).
Proof.
  intros Hp Hd Hr r Hin. apply filter_In in Hin. destruct Hin as [Hin Hm].
  apply filter_In. split; [exact Hin|].
  apply filter_mask_iff in Hm. destruct Hm as (H1 & H2 & H3).
  apply filter_mask_iff. repeat split.
  - destruct H1 as [E|(v & E & Hv)]; [now left|].
    right. exists v. split; [exact E|]. eapply Qle_trans; eassumption.
  - destruct H2 as [E|(v & E & Hv)]; [now left|].
    right. exists v. split; [exact E|]. eapply Qle_trans; eassumption.
  - destruct H3 as [E|(v & E & Hv)]; [now left|].
    right. exists v. split; [exact E|]. eapply Qle_trans; eassumption.
Qed.

Lemma filter_loosening_witness :
  (100 <= 999)%Q /\ (0 <= 10)%Q /\ (0 <= 4)%Q /\
  incl (filter (filter_mask 100 10 4) [derive (rt := example_runtime) shoe_row])
       (filter (filter_mask 999 0 0) [derive (rt := example_runtime) shoe_row]).
Proof.
  assert (H1 : (100 <= 999)%Q) by (vm_compute; discriminate).
  assert (H2 : (0 <= 10)%Q) by (vm_compute; discriminate).
  assert (H3 : (0 <= 4)%Q) by (vm_compute; discriminate).
  split; [exact H1|]. split; [exact H2|]. split; [exact H3|].
  apply (filter_loosening 100 10 4 999 0 0 _ H1 H2 H3).
Defined.

Lemma Qdiv_back (dp rp : Q) : (0 < rp)%Q -> (dp == dp / rp * rp)%Q.
Proof.
  intros H. field. intros E. rewrite E in H. now apply Qlt_irrefl in H.
Qed.

Lemma discount_percentage_bounds (r : ProductRow) (rp dp : Q) :
  retail_price r = Some rp -> (0 < rp)%Q -> discounted_price r = Some dp ->
  exists d,
    calculate_discount_percentage r = Some d /\
    ((dp <= rp)%Q <-> (0 <= d)%Q) /\
    ((0 <= dp)%Q -> (d <= 100)%Q).
Proof.
  intros Hr Hp Hd. exists (100 * (1 - dp / rp))%Q. split.
  - unfold calculate_discount_percentage. rewrite Hr, Hd.
    apply Qgt_bool_iff in Hp. now rewrite Hp.
  - pose proof (Qdiv_back dp rp Hp) as E.
    set (x := (dp / rp)%Q) in *. clearbody x. split; [split|].
    + intros H. rewrite E in H. Lqa.nra.
    + intros H. rewrite E. Lqa.nra.
    + intros H. rewrite E in H. Lqa.nra.
Qed.

(** X10. For a positive retail price and a known discounted price the
    discount percentage exists; it is at least 0 exactly when the
    discounted price is at most the retail price, and at most 100 when the
    discounted price is not negative. *)
Theorem discount_percentage_range (r : ProductRow) (rp dp : Q) :
  retail_price r = Some rp -> (0 < rp)%Q -> discounted_price r = Some dp ->
  exists d,
    calculate_discount_percentage r = Some d /\
    ((dp <= rp)%Q <-> (0 <= d)%Q) /\
    ((0 <= dp)%Q -> (d <= 100)%Q).
Proof. apply discount_percentage_bounds. Qed.

Lemma discount_percentage_range_witness :
  retail_price shoe_row = Some 100%Q /\ (0 < 100)%Q /\
  discounted_price shoe_row = Some 80%Q /\
  exists d,
    calculate_discount_percentage shoe_row = Some d /\
    ((80 <= 100)%Q <-> (0 <= d)%Q) /\ ((0 <= 80)%Q -> (d <= 100)%Q).
Proof.
  split; [reflexivity|]. split; [reflexivity|]. split; [reflexivity|].
  apply (discount_percentage_range shoe_row 100 80); reflexivity.
Defined.

(** X11. A row whose discounted price is above its positive retail price
    has a negative discount percentage and is removed by the filter for
    every [min_discount] that is not negative, the default 0 included. *)
Theorem overpriced_row_filtered {rt : PyRuntime} (r : ProductRow) (rp dp : Q)
    (max_price min_discount min_rating : Q) :
  retail_price r = Some rp -> (0 < rp)%Q -> discounted_price r = Some dp ->
  (rp < dp)%Q -> (0 <= min_discount)%Q ->
  filter_mask max_price min_discount min_rating (derive r) = false.
Proof.
  intros Hr Hp Hd Hlt Hm.
  destruct (filter_mask max_price min_discount min_rating (derive r)) eqn:E;
    [|reflexivity].
  apply filter_mask_iff in E. destruct E as (_ & H2 & _). simpl in H2.
  destruct (discount_percentage_bounds r rp dp Hr Hp Hd) as (d & Ed & Hiff & _).
  rewrite Ed in H2. destruct H2 as [H2|(v & Ev & Hv)]; [discriminate|].
  injection Ev as <-.
  assert (Hd0 : (0 <= d)%Q) by (eapply Qle_trans; eassumption).
  apply Hiff in Hd0. exfalso. eapply Qlt_not_le; eassumption.
Qed.

(** The shoe row with its discounted price above its retail price. *)
Lemma overpriced_row_filtered_witness :
  let r := {| product_name := product_name shoe_row;
              product_category_tree := product_category_tree shoe_row;
              brand := brand shoe_row;
              description := description shoe_row;
              extracted_specifications := extracted_specifications shoe_row;
              retail_price := Some 100%Q;
              discounted_price := Some 120%Q;
              product_rating := product_rating shoe_row;
              image := image shoe_row;
              product_url := product_url shoe_row |} in
  (0 < 100)%Q /\ (100 < 120)%Q /\ (0 <= 0)%Q /\
  filter_mask 99999 0 0 (derive (rt := example_runtime) r) = false.
Proof.
  intros r. split; [reflexivity|]. split; [reflexivity|].
  split; [vm_compute; discriminate|].
  apply (overpriced_row_filtered (rt := example_runtime) r 100 120 99999 0 0);
    try reflexivity. vm_compute; discriminate.
Defined.

(** X12. A row with no discounted price, no computable discount and no
    numeric rating passes the filter for every triple of thresholds. *)
Theorem row_without_values_kept {rt : PyRuntime} (r : ProductRow)
    (max_price min_discount min_rating : Q) :
  discounted_price r = None ->
  to_numeric (product_rating r) = None ->
  filter_mask max_price min_discount min_rating (derive r) = true.
Proof.
  intros Hd Hr. apply filter_mask_iff. simpl.
  assert (E : calculate_discount_percentage r = None).
  { unfold calculate_discount_percentage. rewrite Hd.
    destruct (retail_price r) as [rp|]; [|reflexivity].
    now destruct (Qgt_bool rp 0). }
  rewrite Hd, Hr, E. repeat split; now left.
Qed.

Lemma row_without_values_kept_witness :
  let r := {| product_name := product_name free_row;
              product_category_tree := None;
              brand := None;
              description := None;
              extracted_specifications := None;
              retail_price := Some 100%Q;
              discounted_price := None;
              product_rating := RatingText "No rating available";
              image := image free_row;
              product_url := product_url free_row |} in
  discounted_price r = None /\
  to_numeric (rt := example_runtime) (product_rating r) = None /\
  filter_mask 1 99 5 (derive (rt := example_runtime) r) = true.
Proof.
  intros r. split; [reflexivity|]. split; [reflexivity|].
  apply (row_without_values_kept (rt := example_runtime) r 1 99 5);
    reflexivity.
Defined.

(** ** The endpoint *)

(** X13. The endpoint returns the empty list for a blank query and never
    more than twelve records, nor more than the catalog has rows. *)
Theorem search_at_most_twelve {rt : PyRuntime} (st : Store) (query : string)
    (max_price min_discount min_rating : option Q) :
  (strip query = EmptyString ->
   search st query max_price min_discount min_rating = Ok []) /\
  (forall out,
     search st query max_price min_discount min_rating = Ok out ->
     (List.length out <= 12)%nat /\ (List.length out <= List.length (df st))%nat).
Proof.
  unfold search. split.
  - intros H. unfold get_relevant_products. now rewrite H.
  - intros out Ho.
    destruct (result_size_positive_top_n st query
                (or_default 99999 max_price) (or_default 0 min_discount)
                (or_default 0 min_rating) 12 out) as [_ H]; [lia|].
    specialize (H Ho). change (Z.to_nat 12) with 12%nat in H. lia.
Qed.

Lemma search_at_most_twelve_witness :
  search (rt := example_runtime) store_one "shoes" None None None
  = Ok [shoe_summary] /\
  (List.length [shoe_summary] <= 12)%nat.
Proof.
  assert (H : search (rt := example_runtime) store_one "shoes" None None None
              = Ok [shoe_summary]).
  { unfold search, or_default.
    unfold store_one.
    rewrite get_relevant_products_run
      by (try apply same_vocabulary_sizes_shoes; reflexivity).
    cbn [df shoes_store map].
    rewrite top_indices_singleton by lia. reflexivity. }
  split; [exact H|].
  destruct (search_at_most_twelve (rt := example_runtime) store_one "shoes"
              None None None) as [_ Hb].
  apply (Hb [shoe_summary] H).
Defined.

(** ** Queries *)

Lemma normalize_fixed (x : option string) :
  normalize_text_simple (Some (normalize_text_simple x))
  = normalize_text_simple x.
Proof.
  change (normalize_text_simple (Some ?u)) with (re_sub_nonword (str_lower u)).
  rewrite (str_lower_fixed _ (normalized_no_upper x)).
  apply re_sub_nonword_fixed, normalized_kept.
Qed.

Lemma lower_char_twice (c : ascii) : lower_char (lower_char c) = lower_char c.
Proof. apply lower_char_fixed, lower_char_not_upper. Qed.

Lemma str_lower_twice (s : string) : str_lower (str_lower s) = str_lower s.
Proof. apply str_lower_fixed, str_lower_no_upper. Qed.

Lemma scores_of_normal_form (st : Store) (q1 q2 : string) :
  normalize_text_simple (Some q1) = normalize_text_simple (Some q2) ->
  combined_similarities st q1 = combined_similarities st q2.
Proof.
  intros H. unfold combined_similarities, get_weighted_tfidf_vector.
  now rewrite H.
Qed.

(** X14. Whatever the language libraries answer, a query that
    [process_query] returns is in normal form: normalizing it again changes
    nothing, and it holds only word characters and whitespace. When the
    query is detected as English, the returned query gets the same combined
    similarities as the query itself. *)
Theorem process_query_normal_form {lr : LangRuntime} (query : string) :
  (forall r,
     process_query query = Some r ->
     normalize_text_simple (Some r) = r /\
     all_chars (fun c => is_word c || is_space c) r = true) /\
  (forall st r,
     detect query = Some "en"%string ->
     process_query query = Some r ->
     combined_similarities st r = combined_similarities st query).
Proof.
  split.
  - unfold process_query.
    assert (N : forall x r, Some (normalize_text_simple x) = Some r ->
                  normalize_text_simple (Some r) = r /\
                  all_chars (fun c => is_word c || is_space c) r = true).
    { intros x r E. injection E as <-.
      split; [apply normalize_fixed | apply normalized_kept]. }
    intros r. destruct (detect query) as [lang|]; [|discriminate].
    destruct (negb (String.eqb lang "en")); [|apply N].
    destruct (translate lang query) as [t|]; [apply N | discriminate].
  - intros st r Hd Hr. unfold process_query in Hr. rewrite Hd in Hr.
    change (negb (String.eqb "en" "en")) with false in Hr. cbv iota in Hr.
    injection Hr as <-. apply scores_of_normal_form.
    exact (normalize_fixed (Some query)).
Qed.

Lemma process_query_normal_form_witness :
  process_query (lr := example_lang) "Bonjour!" = Some "hello"%string /\
  normalize_text_simple (Some "hello"%string) = "hello"%string /\
  detect (LangRuntime := example_lang) "Red Shoes!" = Some "en"%string /\
  process_query (lr := example_lang) "Red Shoes!" = Some "red shoes"%string /\
  combined_similarities store_two "red shoes"
  = combined_similarities store_two "Red Shoes!".
Proof.
  assert (H : process_query (lr := example_lang) "Bonjour!" = Some "hello"%string)
    by reflexivity.
  assert (Hd : detect (LangRuntime := example_lang) "Red Shoes!"
               = Some "en"%string) by reflexivity.
  assert (Hr : process_query (lr := example_lang) "Red Shoes!"
               = Some "red shoes"%string) by reflexivity.
  destruct (process_query_normal_form (lr := example_lang) "Bonjour!")
    as [Hn _].
  destruct (process_query_normal_form (lr := example_lang) "Red Shoes!")
    as [_ He].
  split; [exact H|]. split; [apply (Hn "hello"%string H)|].
  split; [exact Hd|]. split; [exact Hr|].
  apply (He store_two "red shoes"%string Hd Hr).
Defined.

(** X15. The scores do not see the case of the query, nor its punctuation:
    a query, its lowercased text and its normalized text get the same
    combined similarities. *)
Theorem scores_ignore_case_and_punctuation (st : Store) (query : string) :
  combined_similarities st (str_lower query) = combined_similarities st query /\
  combined_similarities st (normalize_text_simple (Some query))
  = combined_similarities st query.
Proof.
  split; apply scores_of_normal_form.
  - simpl. now rewrite str_lower_twice.
  - apply normalize_fixed.
Qed.

Lemma transform_same_counts (v : TfidfVectorizer) (d1 d2 : string) :
  Forall (fun t => term_count (tokenize (str_lower d1)) t
                   = term_count (tokenize (str_lower d2)) t)
    (map fst (features v)) ->
  transform v d1 = transform v d2.
Proof.
  intros H. unfold transform. f_equal. apply map_ext_in.
  intros ti Hin. rewrite Forall_forall in H.
  rewrite (H (fst ti)); [reflexivity|]. now apply in_map.
Qed.

(** X16. The scores depend on the query only through the number of times
    each vocabulary term occurs among its tokens: word order and words
    outside the five vocabularies change nothing. *)
Theorem scores_depend_on_known_counts (st : Store) (q1 q2 : string) :
  same_known_counts st q1 q2 ->
  get_weighted_tfidf_vector st q1 = get_weighted_tfidf_vector st q2 /\
  combined_similarities st q1 = combined_similarities st q2.
Proof.
  unfold same_known_counts, known_terms, query_tokens.
  rewrite !Forall_app. intros (H1 & H2 & H3 & H4 & H5).
  assert (E : get_weighted_tfidf_vector st q1 = get_weighted_tfidf_vector st q2).
  { unfold get_weighted_tfidf_vector.
    rewrite (transform_same_counts (tfidf_name st) _ _ H1).
    rewrite (transform_same_counts (tfidf_category st) _ _ H2).
    rewrite (transform_same_counts (tfidf_brand st) _ _ H3).
    rewrite (transform_same_counts (tfidf_description st) _ _ H4).
    rewrite (transform_same_counts (tfidf_specifications st) _ _ H5).
    reflexivity. }
  split; [exact E|]. unfold combined_similarities. now rewrite E.
Qed.

Lemma scores_depend_on_known_counts_witness :
  same_known_counts store_two "shoes" "boots, SHOES? (red)" /\
  combined_similarities store_two "shoes" = Ok [1%R; 1%R] /\
  combined_similarities store_two "shoes"
  = combined_similarities store_two "boots, SHOES? (red)".
Proof.
  assert (H : same_known_counts store_two "shoes" "boots, SHOES? (red)")
    by (repeat constructor).
  split; [exact H|]. split; [apply combined_similarities_store_two|].
  apply (scores_depend_on_known_counts store_two _ _ H).
Defined.

Lemma all_chars_app (p : ascii -> bool) (s t : string) :
  all_chars p (s ++ t) = all_chars p s && all_chars p t.
Proof.
  induction s as [|c s IH]; simpl; [reflexivity|].
  now rewrite IH, andb_assoc.
Qed.

Lemma emit_tokens (cur : string) :
  all_chars is_word cur = true ->
  Forall (fun t => (2 <= String.length t)%nat /\ all_chars is_word t = true)
    (emit cur).
Proof.
  intros H. unfold emit.
  destruct (Nat.leb_spec 2 (String.length cur)); repeat constructor; assumption.
Qed.

Lemma tokens_from_tokens (s cur : string) :
  all_chars is_word cur = true ->
  Forall (fun t => (2 <= String.length t)%nat /\ all_chars is_word t = true)
    (tokens_from s cur).
Proof.
  revert cur. induction s as [|c s IH]; intros cur H; simpl.
  - now apply emit_tokens.
  - destruct (is_word c) eqn:Ec.
    + apply IH. rewrite all_chars_app, H. simpl. now rewrite Ec.
    + apply Forall_app. split; [now apply emit_tokens | now apply IH].
Qed.

(** X17. Every token the vectorizers get from a text has at least two
    characters, all of them word characters; a text of at most one
    character has no token, and its vector is zero in every field. *)
Theorem tokens_have_two_word_characters (s : string) :
  Forall (fun t => (2 <= String.length t)%nat /\ all_chars is_word t = true)
    (tokenize s) /\
  (forall v doc,
     (String.length doc <= 1)%nat -> all_zero (transform v doc)).
Proof.
  split; [now apply tokens_from_tokens|].
  intros v doc Hl.
  assert (Ht : tokenize (str_lower doc) = []).
  { destruct doc as [|c [|c' doc]]; simpl in Hl; try lia.
    - reflexivity.
    - unfold tokenize. simpl. now destruct (is_word (lower_char c)). }
  rewrite (transform_no_token v doc Ht).
  apply Forall_map, Forall_forall. intros; reflexivity.
Qed.

(** ** C9: repeated invocations *)



(** With an interpreter whose [eval] is a function of the text, the
    pipeline with state is the first pipeline and leaves the state as it
    found it. *)
Lemma products_loop_in_function {interp : PyInterpreter}
    (f : string -> option pyobj) (rows : list ResultRow)
    (products : list ProductSummary) (w : world) :
  (forall s w, eval_in s w = (f s, w)) ->
  products_loop_in rows products w
  = (products_loop (rt := runtime_of f numeric_of) rows products, w).
Proof.
  intros Hf. revert products.
  induction rows as [|r rows IH]; intros products; [reflexivity|].
  cbn [products_loop_in products_loop]. unfold try_eval_image_in, try_eval_image.
  destruct (image (row r)) as [s|].
  - rewrite Hf. cbn [py_eval runtime_of].
    destruct (truthy _); [|apply IH].
    destruct (getitem0 _); [apply IH | reflexivity].
  - destruct (truthy _); [|apply IH].
    destruct (getitem0 _); [apply IH | reflexivity].
Qed.

Lemma get_relevant_products_in_function {interp : PyInterpreter}
    (f : string -> option pyobj) (st : Store) (query : string)
    (max_price min_discount min_rating : Q) (top_n : Z) (w : world) :
  (forall s w, eval_in s w = (f s, w)) ->
  get_relevant_products_in st query max_price min_discount min_rating top_n w
  = (get_relevant_products (rt := runtime_of f numeric_of) st query
       max_price min_discount min_rating top_n, w).
Proof.
  intros Hf. unfold get_relevant_products_in, get_relevant_products.
  destruct (str_is_empty (strip query)); [reflexivity|].
  destruct (combined_similarities st query) as [combined|e]; [|reflexivity].
  cbn [bind].
  destruct (iloc (df st) (top_indices combined top_n)) as [selected|e];
    [|reflexivity].
  cbn [bind]. now apply products_loop_in_function.
Qed.







